(** * resolute-jira: cursor pagination fetchers and issue normalisation

    A shallow embedding of [client.go] and [issues.go] of the Jira provider,
    together with the parts of the Go standard library they call
    ([strconv.Atoi], [strconv.Itoa], [url.QueryEscape], [fmt.Errorf]).

    Go's [int] is taken to be 64 bits wide.  Go strings are byte strings and
    are embedded as [string] (a list of 8-bit [ascii]).  Go maps are embedded
    as stdpp's [gmap]. *)

From Stdlib Require Import ZArith String Ascii List Lia Bool.
From stdpp Require Import base option gmap strings.

Local Open Scope string_scope.
Local Open Scope Z_scope.

(** ** Go's 64-bit [int] *)

Module goint.

Definition MaxInt : Z := 2 ^ 63 - 1.
Definition MinInt : Z := - 2 ^ 63.

(** Two's-complement wrap-around of a mathematical integer into [int]. *)
Definition wrap (z : Z) : Z := (z + 2 ^ 63) mod 2 ^ 64 - 2 ^ 63.

Definition in_range (z : Z) : Prop := MinInt <= z <= MaxInt.

(** [a + b] on [int]. *)
Definition add (a b : Z) : Z := wrap (a + b).

(** [len(xs)] as an [int]. *)
Definition len {A} (xs : list A) : Z := Z.of_nat (length xs).

End goint.

(** ** package strconv *)

Module strconv.

(** The two sentinel errors of the package. *)
Inductive sentinel := ErrSyntax | ErrRange.

(** [*strconv.NumError]. *)
Record NumError := mkNumError { Func : string; Num : string; Err : sentinel }.

Definition maxUint64 : Z := 2 ^ 64 - 1.

Definition digit_val (c : ascii) : option Z :=
  let n := Z.of_N (N_of_ascii c) in
  if (48 <=? n) && (n <=? 57) then Some (n - 48) else None.

Definition digit_char (d : Z) : ascii := ascii_of_N (Z.to_N (48 + d)).

(** The digit loop of [ParseUint(s, 10, 64)]: a byte that is no decimal
    digit is a syntax error (an underscore included, the base being
    explicit); the range checks are made before each digit is added, so an
    overflow is reported before a later bad byte is seen. *)
Fixpoint parseUint_loop (s : string) (n : Z) : sentinel + Z :=
  match s with
  | EmptyString => inr n
  | String c rest =>
      match digit_val c with
      | None => inl ErrSyntax
      | Some d =>
          if maxUint64 / 10 + 1 <=? n then inl ErrRange
          else
            let n1 := n * 10 + d in
            if maxUint64 <? n1 then inl ErrRange
            else parseUint_loop rest n1
      end
  end.

(** [ParseInt(s, 10, 0)]: optional sign, at least one digit, result within
    [int]. *)
Definition ParseInt (s : string) : sentinel + Z :=
  match s with
  | EmptyString => inl ErrSyntax
  | String c rest =>
      let neg := Ascii.eqb c "-"%char in
      let digits := if Ascii.eqb c "+"%char || neg then rest else s in
      match digits with
      | EmptyString => inl ErrSyntax
      | _ =>
          match parseUint_loop digits 0 with
          | inl e => inl e
          | inr un =>
              if negb neg && (2 ^ 63 <=? un) then inl ErrRange
              else if neg && (2 ^ 63 <? un) then inl ErrRange
              else inr (if neg then - un else un)
          end
      end
  end.

(** [strconv.Atoi].  Its fast path for short strings computes what
    [ParseInt] computes; the error names the function and the input. *)
Definition Atoi (s : string) : NumError + Z :=
  match ParseInt s with
  | inl e => inl (mkNumError "Atoi" s e)
  | inr n => inr n
  end.

(** Digits of [u], least significant first, pushed in front of [acc]
    (the loop of [formatBits] for base 10). *)
Fixpoint formatBits (fuel : nat) (u : Z) (acc : string) : string :=
  match fuel with
  | O => acc
  | S f =>
      let acc' := String (digit_char (u mod 10)) acc in
      if u <? 10 then acc' else formatBits f (u / 10) acc'
  end.

(** [strconv.Itoa]: an [int] has at most 19 decimal digits. *)
Definition Itoa (i : Z) : string :=
  if i <? 0 then String "-"%char (formatBits 20 (- i) "")
  else formatBits 20 i "".

End strconv.

(** ** package time *)

Module time.

(** [time.Time]: an instant as seconds and nanoseconds since
    January 1, year 1, 00:00:00 UTC, with the offset of its zone. *)
Record Time := mkTime { sec : Z; nsec : Z; offset : Z }.

(** [time.Time{}], the zero instant. *)
Definition zero : Time := mkTime 0 0 0.

(** [time.Duration] counts nanoseconds. *)
Definition Second : Z := 1000000000.
Definition Minute : Z := 60 * Second.

End time.

(** ** errors *)

(** Go [error] values.  [wrapError] is what [fmt.Errorf] builds for a format
    with one [%w] verb: the formatted message and the wrapped cause. *)
Inductive error :=
| errorString (msg : string)
| numError (e : strconv.NumError)
| wrapError (msg : string) (cause : error).


(** ** client.go: the data model *)

Module Status.
Record t := mk { Name : string; ID : string }.
End Status.

Module IssueType.
Record t := mk { Name : string; ID : string }.
End IssueType.

Module Project.
Record t := mk { Key : string; Name : string; ID : string }.
End Project.

Module Priority.
Record t := mk { Name : string; ID : string }.
End Priority.

Module User.
Record t := mk { DisplayName : string; EmailAddress : string; AccountID : string }.
End User.

Module Comment.
Record t := mk {
  ID : string;
  Body : string;
  Author : User.t;
  Created : string;
  Updated : string
}.
End Comment.

Module Comments.
Record t := mk { Total : Z; Comments : list Comment.t }.
End Comments.

(** Pointer fields ([*Priority], [*User], [*Comments]) are options:
    [None] is the nil pointer. *)
Module IssueFields.
Record t := mk {
  Summary : string;
  Description : string;
  Status : Status.t;
  IssueType : IssueType.t;
  Project : Project.t;
  Created : string;
  Updated : string;
  Labels : list string;
  Priority : option Priority.t;
  Assignee : option User.t;
  Reporter : option User.t;
  Comments : option Comments.t
}.
End IssueFields.

Module Issue.
Record t := mk {
  ID : string;
  Key : string;
  Self : string;
  Fields : IssueFields.t
}.
End Issue.

Module SearchResult.
Record t := mk {
  StartAt : Z;
  MaxResults : Z;
  Total : Z;
  Issues : list Issue.t
}.
End SearchResult.

Module SearchJQLParams.
Record t := mk { JQL : string; StartAt : Z; MaxResults : Z }.
End SearchJQLParams.

Module ClientConfig.
Record t := mk {
  BaseURL : string;
  Email : string;
  APIToken : string;
  Timeout : Z
}.
End ClientConfig.

Module Client.
Record t := mk {
  baseURL : string;
  email : string;
  apiToken : string;
  httpClient_Timeout : Z
}.
End Client.

(** ** The library functions that are used but not embedded

    [strconv.Quote], [time.Parse], [Time.Format], the URL check of
    [http.NewRequestWithContext] and the JSON decoder are parameters of the
    development.  A fallible one returns its error or its value;
    [time.Parse] returns the zero [Time] together with every error. *)
Class GoRuntime := {
  strconv_Quote : string -> string;
  time_Parse : string -> string -> error + time.Time;
  time_Format : time.Time -> string -> string;
  url_Parse_error : string -> option error;
  json_Decode_SearchResult : string -> error + SearchResult.t;
  json_Decode_Issue : string -> error + Issue.t
}.

Section Errors.
Context `{GoRuntime}.

Definition sentinel_message (e : strconv.sentinel) : string :=
  match e with
  | strconv.ErrSyntax => "invalid syntax"
  | strconv.ErrRange => "value out of range"
  end.

(** The [Error()] method. *)
Definition Error (e : error) : string :=
  match e with
  | errorString msg => msg
  | numError ne =>
      "strconv." +:+ strconv.Func ne +:+ ": parsing "
        +:+ strconv_Quote (strconv.Num ne) +:+ ": "
        +:+ sentinel_message (strconv.Err ne)
  | wrapError msg _ => msg
  end.

(** [fmt.Errorf(label + "%w", err)]. *)
Definition Errorf_w (label : string) (err : error) : error :=
  wrapError (label +:+ Error err) err.

End Errors.

(** ** package net/url *)

Module url.

(** [shouldEscape(c, encodeQueryComponent)]: letters, digits and the four
    marks [-], [_], [.] and [~] stay as they are. *)
Definition shouldEscape (c : ascii) : bool :=
  let n := Z.of_N (N_of_ascii c) in
  negb (((97 <=? n) && (n <=? 122)) || ((65 <=? n) && (n <=? 90))
        || ((48 <=? n) && (n <=? 57))
        || Ascii.eqb c "-" || Ascii.eqb c "_" || Ascii.eqb c "."
        || Ascii.eqb c "~").

Definition upperhex (n : Z) : ascii :=
  match String.get (Z.to_nat n) "0123456789ABCDEF" with
  | Some c => c
  | None => "0"%char
  end.

(** [url.QueryEscape]: a space becomes [+], an escaped byte becomes [%XX]. *)
Fixpoint QueryEscape (s : string) : string :=
  match s with
  | EmptyString => EmptyString
  | String c rest =>
      let n := Z.of_N (N_of_ascii c) in
      if Ascii.eqb c " " then String "+" (QueryEscape rest)
      else if shouldEscape c then
        String "%" (String (upperhex (n / 16))
                      (String (upperhex (n mod 16)) (QueryEscape rest)))
      else String c (QueryEscape rest)
  end.

End url.

(** ** package net/http: requests, and the remote service as the world *)

(** [BasicAuth] stands for the [Authorization] header that
    [Request.SetBasicAuth] writes. *)
Module Request.
Record t := mk {
  Method : string;
  URL : string;
  BasicAuth : option (string * string);
  Header : gmap string string
}.
End Request.

(** What [httpClient.Do] comes back with: a transport error (a cancelled
    context and an expired deadline included), or a response whose body is
    what [io.ReadAll] reads from it. *)
Inductive RoundTrip :=
| TransportError (err : error)
| Response (StatusCode : Z) (Body : string).

(** The remote service answers a request knowing the requests before it. *)
Definition Remote : Type := list Request.t -> Request.t -> RoundTrip.

Module World.
Record t := mk { remote : Remote; sent : list Request.t }.
End World.

(** Code that performs requests is a state transformer on the world. *)
Definition IO (A : Type) : Type := World.t -> A * World.t.

#[global] Instance IO_ret : MRet IO := fun A (a : A) w => (a, w).
#[global] Instance IO_bind : MBind IO :=
  fun A B (k : A -> IO B) (m : IO A) w => let '(a, w') := m w in k a w'.

Definition httpClient_Do (req : Request.t) : IO RoundTrip :=
  fun w =>
    (World.remote w (World.sent w) req,
     World.mk (World.remote w) (World.sent w ++ [req])).

Definition StatusOK : Z := 200.
Definition MethodGet : string := "GET".

(** ** client.go: the client *)

Section ClientCode.
Context `{GoRuntime}.

Definition NewClient (cfg : ClientConfig.t) : Client.t :=
  let timeout := ClientConfig.Timeout cfg in
  let timeout := if timeout =? 0 then 30 * time.Second else timeout in
  Client.mk (ClientConfig.BaseURL cfg) (ClientConfig.Email cfg)
            (ClientConfig.APIToken cfg) timeout.

(** [http.NewRequestWithContext(ctx, method, url, nil)]. *)
Definition NewRequestWithContext (method target : string)
  : error + Request.t :=
  match url_Parse_error target with
  | Some err => inl err
  | None => inr (Request.mk method target None ∅)
  end.

Definition setAuth (c : Client.t) (req : Request.t) : Request.t :=
  Request.mk (Request.Method req) (Request.URL req)
    (Some (Client.email c, Client.apiToken c))
    (<["Content-Type" := "application/json"]>
       (<["Accept" := "application/json"]> (Request.Header req))).

(** [fmt.Errorf("jira API error: status=%d body=%s", code, body)]. *)
Definition apiError (code : Z) (body : string) : error :=
  errorString ("jira API error: status=" +:+ strconv.Itoa code
               +:+ " body=" +:+ body).

Definition SearchJQLWithParams (c : Client.t) (params : SearchJQLParams.t)
  : IO (error + SearchResult.t) :=
  let maxResults := SearchJQLParams.MaxResults params in
  let maxResults := if maxResults <=? 0 then 50 else maxResults in
  let endpoint :=
    Client.baseURL c +:+ "/rest/api/3/search?jql="
      +:+ url.QueryEscape (SearchJQLParams.JQL params)
      +:+ "&startAt=" +:+ strconv.Itoa (SearchJQLParams.StartAt params)
      +:+ "&maxResults=" +:+ strconv.Itoa maxResults in
  match NewRequestWithContext MethodGet endpoint with
  | inl err => mret (inl (Errorf_w "create request: " err))
  | inr req =>
      resp ← httpClient_Do (setAuth c req);
      match resp with
      | TransportError err => mret (inl (Errorf_w "execute request: " err))
      | Response code body =>
          if negb (code =? StatusOK) then mret (inl (apiError code body))
          else
            match json_Decode_SearchResult body with
            | inl err => mret (inl (Errorf_w "decode response: " err))
            | inr result => mret (inr result)
            end
      end
  end.

Definition SearchJQL (c : Client.t) (jql : string) (maxResults : Z)
  : IO (error + SearchResult.t) :=
  SearchJQLWithParams c (SearchJQLParams.mk jql 0 maxResults).

Definition GetIssue (c : Client.t) (issueKey : string)
  : IO (error + Issue.t) :=
  let endpoint := Client.baseURL c +:+ "/rest/api/3/issue/" +:+ issueKey in
  match NewRequestWithContext MethodGet endpoint with
  | inl err => mret (inl (Errorf_w "create request: " err))
  | inr req =>
      resp ← httpClient_Do (setAuth c req);
      match resp with
      | TransportError err => mret (inl (Errorf_w "execute request: " err))
      | Response code body =>
          if negb (code =? StatusOK) then mret (inl (apiError code body))
          else
            match json_Decode_Issue body with
            | inl err => mret (inl (Errorf_w "decode response: " err))
            | inr issue => mret (inr issue)
            end
      end
  end.

End ClientCode.

(** ** issues.go: normalisation *)

(** [transform.Document], with the fields that [issueToDocument] sets. *)
Module Document.
Record t := mk {
  ID : string;
  Content : string;
  Title : string;
  Source : string;
  URL : string;
  Metadata : gmap string string;
  UpdatedAt : time.Time
}.
Definition zero : t := mk "" "" "" "" "" ∅ time.zero.
End Document.

(** The line feed of the Go literals ["\n\n"]. *)
Definition LF : string := String "010" EmptyString.

Definition updated_layout : string := "2006-01-02T15:04:05.000-0700".

Section Normalisation.
Context `{GoRuntime}.

(** [fmt.Sprintf("\n\n[Comment by %s]: %s", author, body)]. *)
Definition comment_line (comment : Comment.t) : string :=
  LF +:+ LF +:+ "[Comment by "
     +:+ User.DisplayName (Comment.Author comment) +:+ "]: "
     +:+ Comment.Body comment.

Definition issueToDocument (issue : Issue.t) : Document.t :=
  let fields := Issue.Fields issue in
  let content := IssueFields.Summary fields in
  let content :=
    if negb (String.eqb (IssueFields.Description fields) "")
    then content +:+ (LF +:+ LF +:+ IssueFields.Description fields)
    else content in
  let content :=
    match IssueFields.Comments fields with
    | Some comments =>
        fold_left (fun content comment => content +:+ comment_line comment)
                  (Comments.Comments comments) content
    | None => content
    end in
  let updatedAt :=
    if negb (String.eqb (IssueFields.Updated fields) "")
    then match time_Parse updated_layout (IssueFields.Updated fields) with
         | inr t => t
         | inl _ => time.zero
         end
    else time.zero in
  let metadata : gmap string string :=
    <["issue_type" := IssueType.Name (IssueFields.IssueType fields)]>
      (<["status" := Status.Name (IssueFields.Status fields)]>
         (<["project" := Project.Key (IssueFields.Project fields)]>
            (<["issue_key" := Issue.Key issue]> ∅))) in
  let metadata :=
    match IssueFields.Priority fields with
    | Some priority => <["priority" := Priority.Name priority]> metadata
    | None => metadata
    end in
  let metadata :=
    match IssueFields.Assignee fields with
    | Some assignee => <["assignee" := User.DisplayName assignee]> metadata
    | None => metadata
    end in
  Document.mk (Issue.Key issue) content (IssueFields.Summary fields) "jira"
              (Issue.Self issue) metadata updatedAt.

End Normalisation.

(** ** issues.go: fetching one issue *)

Module FetchIssueInput.
Record t := mk {
  BaseURL : string;
  Email : string;
  APIToken : string;
  IssueKey : string
}.
End FetchIssueInput.

Module FetchIssueOutput.
Record t := mk { Document : Document.t; Found : bool }.
Definition zero : t := mk Document.zero false.
End FetchIssueOutput.

Section FetchIssue.
Context `{GoRuntime}.

Definition FetchIssueActivity (input : FetchIssueInput.t)
  : IO (FetchIssueOutput.t * option error) :=
  let client :=
    NewClient (ClientConfig.mk (FetchIssueInput.BaseURL input)
                 (FetchIssueInput.Email input)
                 (FetchIssueInput.APIToken input) 0) in
  r ← GetIssue client (FetchIssueInput.IssueKey input);
  match r with
  | inl err => mret (FetchIssueOutput.zero, Some (Errorf_w "get issue: " err))
  | inr issue => mret (FetchIssueOutput.mk (issueToDocument issue) true, None)
  end.

End FetchIssue.

(** ** issues.go: the page fetchers of the two fetch-all nodes *)

(** [core.PageResult[Issue]]. *)
Module PageResult.
Record t := mk { Items : list Issue.t; NextCursor : string; HasMore : bool }.
Definition zero : t := mk [] "" false.
End PageResult.

Module FetchAllIssuesConfig.
Record t := mk {
  BaseURL : string;
  Email : string;
  APIToken : string;
  Project : string;
  Since : option time.Time;
  MaxResults : Z
}.
End FetchAllIssuesConfig.

Module SearchAllJQLConfig.
Record t := mk {
  BaseURL : string;
  Email : string;
  APIToken : string;
  JQL : string;
  MaxResults : Z
}.
End SearchAllJQLConfig.

Section Fetchers.
Context `{GoRuntime}.

(** The closure [fetcher] of [FetchAllIssues]. *)
Definition FetchAllIssues_fetcher (cfg : FetchAllIssuesConfig.t)
  (cursor : string) : IO (PageResult.t * option error) :=
  let client :=
    NewClient (ClientConfig.mk (FetchAllIssuesConfig.BaseURL cfg)
                 (FetchAllIssuesConfig.Email cfg)
                 (FetchAllIssuesConfig.APIToken cfg) 0) in
  let jql :=
    match FetchAllIssuesConfig.Since cfg with
    | Some since =>
        "project = " +:+ FetchAllIssuesConfig.Project cfg
          +:+ " AND updated >= '" +:+ time_Format since "2006-01-02 15:04"
          +:+ "' ORDER BY updated DESC"
    | None =>
        "project = " +:+ FetchAllIssuesConfig.Project cfg
          +:+ " ORDER BY updated DESC"
    end in
  match (if negb (String.eqb cursor "") then strconv.Atoi cursor
         else inr 0) with
  | inl err =>
      mret (PageResult.zero, Some (Errorf_w "parse cursor: " (numError err)))
  | inr startAt =>
      let maxResults := FetchAllIssuesConfig.MaxResults cfg in
      let maxResults := if maxResults <=? 0 then 100 else maxResults in
      r ← SearchJQLWithParams client
            (SearchJQLParams.mk jql startAt maxResults);
      match r with
      | inl err => mret (PageResult.zero, Some (Errorf_w "search jql: " err))
      | inr result =>
          let nextStartAt :=
            goint.add startAt (goint.len (SearchResult.Issues result)) in
          let hasMore := nextStartAt <? SearchResult.Total result in
          let nextCursor :=
            if hasMore then strconv.Itoa nextStartAt else "" in
          mret (PageResult.mk (SearchResult.Issues result) nextCursor hasMore,
                None)
      end
  end.

(** The closure [fetcher] of [SearchAllJQL]. *)
Definition SearchAllJQL_fetcher (cfg : SearchAllJQLConfig.t)
  (cursor : string) : IO (PageResult.t * option error) :=
  let client :=
    NewClient (ClientConfig.mk (SearchAllJQLConfig.BaseURL cfg)
                 (SearchAllJQLConfig.Email cfg)
                 (SearchAllJQLConfig.APIToken cfg) 0) in
  match (if negb (String.eqb cursor "") then strconv.Atoi cursor
         else inr 0) with
  | inl err =>
      mret (PageResult.zero, Some (Errorf_w "parse cursor: " (numError err)))
  | inr startAt =>
      let maxResults := SearchAllJQLConfig.MaxResults cfg in
      let maxResults := if maxResults <=? 0 then 100 else maxResults in
      r ← SearchJQLWithParams client
            (SearchJQLParams.mk (SearchAllJQLConfig.JQL cfg) startAt
               maxResults);
      match r with
      | inl err => mret (PageResult.zero, Some (Errorf_w "search jql: " err))
      | inr result =>
          let nextStartAt :=
            goint.add startAt (goint.len (SearchResult.Issues result)) in
          let hasMore := nextStartAt <? SearchResult.Total result in
          let nextCursor :=
            if hasMore then strconv.Itoa nextStartAt else "" in
          mret (PageResult.mk (SearchResult.Issues result) nextCursor hasMore,
                None)
      end
  end.

End Fetchers.

(** ** issues.go: the single-page activities *)

(** The storage collaborator: [core.DataRef] and [transform.StoreDocuments]
    are parameters of the development.  The collaborator answers a batch of
    documents knowing the batches handed to it before. *)
Class Storage := {
  DataRef : Type;
  DataRef_zero : DataRef;
  transform_StoreDocuments :
    list (list Document.t) -> list Document.t -> error + DataRef
}.

(** An activity acts on the remote service and on the storage collaborator:
    [handed] lists the batches passed to [transform.StoreDocuments]. *)
Module Env.
Record t := mk { world : World.t; handed : list (list Document.t) }.
End Env.

Definition Activity (A : Type) : Type := Env.t -> A * Env.t.

#[global] Instance Activity_ret : MRet Activity := fun A (a : A) e => (a, e).
#[global] Instance Activity_bind : MBind Activity :=
  fun A B (k : A -> Activity B) (m : Activity A) e =>
    let '(a, e') := m e in k a e'.

(** A client call inside an activity. *)
Definition liftIO {A} (m : IO A) : Activity A :=
  fun e => let '(a, w) := m (Env.world e) in (a, Env.mk w (Env.handed e)).

Definition StoreDocuments `{Storage} (docs : list Document.t)
  : Activity (error + DataRef) :=
  fun e =>
    (transform_StoreDocuments (Env.handed e) docs,
     Env.mk (Env.world e) (Env.handed e ++ [docs])).

Module FetchIssuesInput.
Record t := mk {
  BaseURL : string;
  Email : string;
  APIToken : string;
  Project : string;
  Since : option time.Time;
  MaxResults : Z
}.
End FetchIssuesInput.

Module FetchIssuesOutput.
Record t `{Storage} := mk { Ref : DataRef; Count : Z; Total : Z }.
Definition zero `{Storage} : t := mk _ DataRef_zero 0 0.
End FetchIssuesOutput.

Module SearchJQLInput.
Record t := mk {
  BaseURL : string;
  Email : string;
  APIToken : string;
  JQL : string;
  MaxResults : Z
}.
End SearchJQLInput.

Module SearchJQLOutput.
Record t `{Storage} := mk { Ref : DataRef; Count : Z; Total : Z }.
Definition zero `{Storage} : t := mk _ DataRef_zero 0 0.
End SearchJQLOutput.

Section PageActivities.
Context `{GoRuntime} `{Storage}.

(** The loop [for _, issue := range issues { docs = append(docs, ...) }]. *)
Definition documents_of (issues : list Issue.t) : list Document.t :=
  fold_left (fun docs issue => (docs ++ [issueToDocument issue])%list)
            issues [].

Definition FetchIssuesActivity (input : FetchIssuesInput.t)
  : Activity (FetchIssuesOutput.t * option error) :=
  let client :=
    NewClient (ClientConfig.mk (FetchIssuesInput.BaseURL input)
                 (FetchIssuesInput.Email input)
                 (FetchIssuesInput.APIToken input) 0) in
  let jql :=
    match FetchIssuesInput.Since input with
    | Some since =>
        "project = " +:+ FetchIssuesInput.Project input
          +:+ " AND updated >= '" +:+ time_Format since "2006-01-02 15:04"
          +:+ "' ORDER BY updated DESC"
    | None =>
        "project = " +:+ FetchIssuesInput.Project input
          +:+ " ORDER BY updated DESC"
    end in
  let maxResults := FetchIssuesInput.MaxResults input in
  let maxResults := if maxResults <=? 0 then 100 else maxResults in
  r ← liftIO (SearchJQL client jql maxResults);
  match r with
  | inl err => mret (FetchIssuesOutput.zero, Some (Errorf_w "search jql: " err))
  | inr result =>
      let docs := documents_of (SearchResult.Issues result) in
      stored ← StoreDocuments docs;
      match stored with
      | inl err =>
          mret (FetchIssuesOutput.zero,
                Some (Errorf_w "store documents: " err))
      | inr ref =>
          mret (FetchIssuesOutput.mk _ ref (goint.len docs)
                  (SearchResult.Total result), None)
      end
  end.

Definition SearchJQLActivity (input : SearchJQLInput.t)
  : Activity (SearchJQLOutput.t * option error) :=
  let client :=
    NewClient (ClientConfig.mk (SearchJQLInput.BaseURL input)
                 (SearchJQLInput.Email input)
                 (SearchJQLInput.APIToken input) 0) in
  let maxResults := SearchJQLInput.MaxResults input in
  let maxResults := if maxResults <=? 0 then 100 else maxResults in
  r ← liftIO (SearchJQL client (SearchJQLInput.JQL input) maxResults);
  match r with
  | inl err => mret (SearchJQLOutput.zero, Some (Errorf_w "search jql: " err))
  | inr result =>
      let docs := documents_of (SearchResult.Issues result) in
      stored ← StoreDocuments docs;
      match stored with
      | inl err =>
          mret (SearchJQLOutput.zero,
                Some (Errorf_w "store documents: " err))
      | inr ref =>
          mret (SearchJQLOutput.mk _ ref (goint.len docs)
                  (SearchResult.Total result), None)
      end
  end.

End PageActivities.

(** ** The pagination engine that drives a fetcher *)

Module core.

(** Modelled from the spec: the output type of the engine is not among the
    sources.  A pagination run hands back the accumulated items, the number
    of pages fetched and the final cursor. *)
Module Output.
Record t := mk {
  Items : list Issue.t;
  PageCount : Z;
  FinalCursor : string
}.
End Output.

(** Modelled from the spec: a run has finished with its output, or has
    failed with an error (what was accumulated is dropped); [Running] is the
    state of a run that is still looping when the fuel is spent. *)
Inductive Run :=
| Finished (out : Output.t)
| Failed (err : error)
| Running.

(** Modelled from the spec: the loop of the pagination engine
    ([core.PaginateWithConfig], of the workflow library this provider is
    built on) is not among the sources.  Each iteration calls the fetch
    function with the current cursor and appends the page's items to the
    accumulator; when the page says there is more, the loop goes on with the
    page's next cursor, otherwise it ends with the final cursor [""]; an
    error of the fetch function aborts the run.  The page size travels in the
    fetcher's configuration. *)
Fixpoint paginate_loop (fuel : nat)
  (fetchPage : string -> IO (PageResult.t * option error))
  (cursor : string) (acc : list Issue.t) (pages : Z) : IO Run :=
  match fuel with
  | O => mret Running
  | S fuel' =>
      r ← fetchPage cursor;
      match r with
      | (_, Some err) => mret (Failed err)
      | (page, None) =>
          let acc := (acc ++ PageResult.Items page)%list in
          if PageResult.HasMore page
          then paginate_loop fuel' fetchPage (PageResult.NextCursor page)
                             acc (pages + 1)
          else mret (Finished (Output.mk acc (pages + 1) ""))
      end
  end.

(** Modelled from the spec: a run starts with the cursor [""], offset 0, and
    an empty accumulator. *)
Definition PaginateAll (fuel : nat)
  (fetchPage : string -> IO (PageResult.t * option error)) : IO Run :=
  paginate_loop fuel fetchPage "" [] 0.


End core.

(** ** Vocabulary of the statements *)

(** [Contains sub s]: [sub] occurs in [s]. *)
Definition Contains (sub s : string) : Prop :=
  exists pre post, s = pre +:+ sub +:+ post.

(** The comments of an issue in their order, none when the container is
    absent. *)
Definition comments_of (issue : Issue.t) : list Comment.t :=
  match IssueFields.Comments (Issue.Fields issue) with
  | Some comments => Comments.Comments comments
  | None => []
  end.

Definition concat_strings (l : list string) : string :=
  fold_right String.append "" l.

(** The content as the specification words it: the summary, then a blank
    line and the description when there is one, then one segment per
    comment. *)
Definition spec_content (issue : Issue.t) : string :=
  let fields := Issue.Fields issue in
  IssueFields.Summary fields
    +:+ (if String.eqb (IssueFields.Description fields) "" then ""
         else LF +:+ LF +:+ IssueFields.Description fields)
    +:+ concat_strings
          (map (fun c => LF +:+ LF +:+ "[Comment by "
                           +:+ User.DisplayName (Comment.Author c) +:+ "]: "
                           +:+ Comment.Body c)
               (comments_of issue)).

(** The cursor [cursor] stands for the start offset [startAt]. *)
Definition encodes (cursor : string) (startAt : Z) : Prop :=
  (cursor = "" /\ startAt = 0) \/ strconv.Atoi cursor = inr startAt.

Definition total_len (pages : list (list Issue.t)) : Z :=
  goint.len (concat pages).

Section Scenarios.
Context `{GoRuntime}.

(** The runtime builds a request for every URL. *)
Definition accepts_urls : Prop :=
  forall target, url_Parse_error target = None.

(** Whatever is requested next in [w], the answer is a 200 whose body decodes
    to [result]. *)
Definition answers_page (w : World.t) (result : SearchResult.t) : Prop :=
  exists body,
    (forall req, World.remote w (World.sent w) req = Response StatusOK body)
    /\ json_Decode_SearchResult body = inr result.

(** A fetch function behaves as a page fetcher when, called with a cursor
    that stands for [startAt] in a world that answers with the page
    [result], it sends one request and returns the page's items with the next
    cursor and the more-flag computed from [startAt], the number of items
    and the reported total. *)
Definition page_fetcher
  (fetchPage : string -> IO (PageResult.t * option error)) : Prop :=
  forall cursor startAt w result,
    encodes cursor startAt ->
    answers_page w result ->
    let next := goint.add startAt (goint.len (SearchResult.Issues result)) in
    let more := next <? SearchResult.Total result in
    exists req,
      fetchPage cursor w
      = ((PageResult.mk (SearchResult.Issues result)
            (if more then strconv.Itoa next else "") more, None),
         World.mk (World.remote w) (World.sent w ++ [req])).

(** From [w] on, the [k]-th request is answered with the [k]-th page of
    [pages] and the total [total]. *)
Definition serves_pages (w : World.t) (total : Z)
  (pages : list (list Issue.t)) : Prop :=
  forall (k : nat) page hist,
    pages !! k = Some page ->
    length hist = (length (World.sent w) + k)%nat ->
    exists body result,
      (forall req, World.remote w hist req = Response StatusOK body)
      /\ json_Decode_SearchResult body = inr result
      /\ SearchResult.Total result = total
      /\ SearchResult.Issues result = page.


(** What a successful call of a page fetcher tells about the exchange behind
    it: the cursor stood for a start offset, the remote service answered 200
    with a body that decodes to a page, and the items, the more-flag and the
    next cursor of the result come from that page by the offset arithmetic
    on [int]. *)
Definition cursor_arithmetic
  (fetchPage : string -> IO (PageResult.t * option error)) : Prop :=
  forall cursor w page w1,
    fetchPage cursor w = ((page, None), w1) ->
    exists startAt req body result,
      encodes cursor startAt
      /\ World.remote w (World.sent w) req = Response StatusOK body
      /\ json_Decode_SearchResult body = inr result
      /\ w1 = World.mk (World.remote w) (World.sent w ++ [req])
      /\ PageResult.Items page = SearchResult.Issues result
      /\ let next := goint.add startAt (goint.len (PageResult.Items page)) in
         PageResult.HasMore page = (next <? SearchResult.Total result)
         /\ PageResult.NextCursor page
            = (if next <? SearchResult.Total result
               then strconv.Itoa next else "").

(** Successive fetch calls of one run: each call but the first is passed the
    next cursor of the call before it, which reported more.
    [fetch_chain fetchPage w cursor pages cursor' w'] holds when such calls,
    started in [w] with [cursor], returned [pages] and leave [cursor'] to be
    passed to the call that follows. *)
Inductive fetch_chain
  (fetchPage : string -> IO (PageResult.t * option error))
  : World.t -> string -> list (list Issue.t) -> string -> World.t -> Prop :=
| chain_done w cursor : fetch_chain fetchPage w cursor [] cursor w
| chain_call w cursor page w1 pages cursor' w' :
    fetchPage cursor w = ((page, None), w1) ->
    PageResult.HasMore page = true ->
    fetch_chain fetchPage w1 (PageResult.NextCursor page) pages cursor' w' ->
    fetch_chain fetchPage w cursor (PageResult.Items page :: pages)
                cursor' w'.

End Scenarios.

(** ** Worked scenarios: a scripted runtime and remote service *)

(** [strconv.Quote] on text without quotes, backslashes or control bytes. *)
Definition quote_plain (s : string) : string :=
  String "034" (s +:+ String "034" EmptyString).

Definition sample_user (name : string) : User.t := User.mk name "" "".

Definition sample_fields (summary description : string)
  (comments : option Comments.t) : IssueFields.t :=
  IssueFields.mk summary description (Status.mk "Open" "1")
    (IssueType.mk "Bug" "10") (Project.mk "OPS" "Operations" "7")
    "" "" [] None None None comments.

Definition sample_issue (key : string) : Issue.t :=
  Issue.mk "" key "" (sample_fields key "" None).

(** The issue of the comment-concatenation scenario. *)
Definition scenario_issue : Issue.t :=
  Issue.mk "10001" "OPS-1" "https://jira.example/rest/api/3/issue/10001"
    (sample_fields "Bug" "Steps..."
       (Some (Comments.mk 1
                [Comment.mk "1" "Confirmed." (sample_user "Alice") "" ""]))).

(** A runtime whose search decoder reads the body as the number of a page of
    [pages] and reports [total]; it knows one timestamp and no issue. *)
Definition scripted_runtime (total : Z) (pages : list (list Issue.t))
  : GoRuntime :=
  {| strconv_Quote := quote_plain;
     time_Parse := fun _ value =>
       if String.eqb value "2024-01-15T10:30:00.000+0000"
       then inr (time.mkTime 63840911400 0 0)
       else inl (errorString ("parsing time " +:+ quote_plain value));
     time_Format := fun _ _ => "2024-01-15 10:30";
     url_Parse_error := fun _ => None;
     json_Decode_SearchResult := fun body =>
       match strconv.Atoi body with
       | inr k =>
           match (if k <? 0 then None else pages !! Z.to_nat k) with
           | Some page => inr (SearchResult.mk 0 0 total page)
           | None => inl (errorString "unexpected end of JSON input")
           end
       | inl _ => inl (errorString "invalid character")
       end;
     json_Decode_Issue := fun _ =>
       inl (errorString "unexpected end of JSON input") |}.

(** The remote service that answers the [k]-th request with page [k]. *)
Definition scripted_world : World.t :=
  World.mk (fun hist _ => Response StatusOK (strconv.Itoa (goint.len hist)))
           [].




Definition two_pages : list (list Issue.t) :=
  [[sample_issue "OPS-1"; sample_issue "OPS-2"]; [sample_issue "OPS-3"]].

Definition sample_cfg : SearchAllJQLConfig.t :=
  SearchAllJQLConfig.mk "https://jira.example" "bot@example.com" "token"
    "project = OPS" 0.

Definition sample_project_cfg : FetchAllIssuesConfig.t :=
  FetchAllIssuesConfig.mk "https://jira.example" "bot@example.com" "token"
    "OPS" None 0.

Definition missing_input : FetchIssueInput.t :=
  FetchIssueInput.mk "https://jira.example" "bot@example.com" "token"
    "NOPE-1".

(** The runtimes of the scenarios: three issues on two pages; one issue
    reported, none ever delivered; no page at all. *)
Definition two_page_runtime : GoRuntime := scripted_runtime 3 two_pages.
Definition plain_runtime : GoRuntime := scripted_runtime 0 [].

(** ** Vocabulary and scenarios of the further properties *)


(** Reading an escaped query component back: [%XY] is the byte with the
    hexadecimal digits [X] and [Y], [+] is a space. *)
Definition hexval (c : ascii) : option Z :=
  let n := Z.of_N (N_of_ascii c) in
  if (48 <=? n) && (n <=? 57) then Some (n - 48)
  else if (65 <=? n) && (n <=? 70) then Some (n - 55)
  else None.

Fixpoint unescape (s : string) : option string :=
  match s with
  | EmptyString => Some EmptyString
  | String c rest =>
      if Ascii.eqb c "%" then
        match rest with
        | String a (String b rest') =>
            match hexval a, hexval b with
            | Some hi, Some lo =>
                String (ascii_of_N (Z.to_N (16 * hi + lo))) <$> unescape rest'
            | _, _ => None
            end
        | _ => None
        end
      else if Ascii.eqb c "+" then String " " <$> unescape rest
      else String c <$> unescape rest
  end.

(** The query string of a search request. *)
Definition search_endpoint (baseURL jql : string) (startAt maxResults : Z)
  : string :=
  baseURL +:+ "/rest/api/3/search?jql=" +:+ url.QueryEscape jql
    +:+ "&startAt=" +:+ strconv.Itoa startAt
    +:+ "&maxResults=" +:+ strconv.Itoa maxResults.

(** A request as the client prepares it: a GET with the account's basic
    authentication and the two JSON headers, and nothing else. *)
Definition prepared_request (req : Request.t) (target email token : string)
  : Prop :=
  Request.Method req = "GET"
  /\ Request.URL req = target
  /\ Request.BasicAuth req = Some (email, token)
  /\ Request.Header req !! "Accept" = Some "application/json"
  /\ Request.Header req !! "Content-Type" = Some "application/json"
  /\ dom (Request.Header req) = {["Accept"; "Content-Type"]}.

(** The query that [FetchAllIssues] and [FetchIssuesActivity] build. *)
Definition project_jql `{GoRuntime} (project : string)
  (since : option time.Time) : string :=
  match since with
  | Some t =>
      "project = " +:+ project +:+ " AND updated >= '"
        +:+ time_Format t "2006-01-02 15:04" +:+ "' ORDER BY updated DESC"
  | None => "project = " +:+ project +:+ " ORDER BY updated DESC"
  end.

(** The page size that the fetchers and the activities ask for. *)
Definition page_size (maxResults : Z) : Z :=
  if maxResults <=? 0 then 100 else maxResults.

(** [wrapped_under labels cause e]: the error [e] is [cause] wrapped by
    [fmt.Errorf] under each of [labels], the outermost first. *)
Fixpoint wrapped_under `{GoRuntime} (labels : list string)
  (cause e : error) : Prop :=
  match labels with
  | [] => e = cause
  | label :: labels' =>
      exists inner,
        e = wrapError (label +:+ Error inner) inner
        /\ wrapped_under labels' cause inner
  end.

(** What of an issue goes into its document: key, link, summary,
    description, the names of status and type, the project key, the updated
    text, the priority name and the assignee's display name when present,
    and of each comment the author's display name and the body. *)
Definition indexed_view (issue : Issue.t) :=
  let fields := Issue.Fields issue in
  (Issue.Key issue, Issue.Self issue,
   IssueFields.Summary fields, IssueFields.Description fields,
   Status.Name (IssueFields.Status fields),
   IssueType.Name (IssueFields.IssueType fields),
   Project.Key (IssueFields.Project fields),
   IssueFields.Updated fields,
   Priority.Name <$> IssueFields.Priority fields,
   User.DisplayName <$> IssueFields.Assignee fields,
   map (fun c => (User.DisplayName (Comment.Author c), Comment.Body c))
       (comments_of issue)).

(** The issue with its comments replaced by [comments]. *)
Definition with_comments (issue : Issue.t) (comments : list Comment.t)
  : Issue.t :=
  let f := Issue.Fields issue in
  Issue.mk (Issue.ID issue) (Issue.Key issue) (Issue.Self issue)
    (IssueFields.mk (IssueFields.Summary f) (IssueFields.Description f)
       (IssueFields.Status f) (IssueFields.IssueType f)
       (IssueFields.Project f) (IssueFields.Created f)
       (IssueFields.Updated f) (IssueFields.Labels f)
       (IssueFields.Priority f) (IssueFields.Assignee f)
       (IssueFields.Reporter f)
       (Some (Comments.mk (goint.len comments) comments))).

(** An issue that differs from [sample_issue "OPS-1"] in fields that are
    not indexed. *)
Definition decorated_issue : Issue.t :=
  Issue.mk "7" "OPS-1" ""
    (IssueFields.mk "OPS-1" "" (Status.mk "Open" "3")
       (IssueType.mk "Bug" "11") (Project.mk "OPS" "Ops" "9")
       "2024-01-01" "" ["ui"] None None (Some (sample_user "Rob"))
       (Some (Comments.mk 0 []))).

(** The output of the search activity read as an output of the project
    activity: the same reference, count and total. *)
Definition as_fetch_output `{Storage} (out : SearchJQLOutput.t)
  : FetchIssuesOutput.t :=
  FetchIssuesOutput.mk _ (SearchJQLOutput.Ref out) (SearchJQLOutput.Count out)
    (SearchJQLOutput.Total out).

(** The input of the search activity that asks for a project's issues. *)
Definition as_search_input `{GoRuntime} (input : FetchIssuesInput.t)
  : SearchJQLInput.t :=
  SearchJQLInput.mk (FetchIssuesInput.BaseURL input)
    (FetchIssuesInput.Email input) (FetchIssuesInput.APIToken input)
    (project_jql (FetchIssuesInput.Project input)
       (FetchIssuesInput.Since input))
    (FetchIssuesInput.MaxResults input).


(** A runtime that builds no request. *)
Definition strict_runtime : GoRuntime :=
  {| strconv_Quote := quote_plain;
     time_Parse := @time_Parse (scripted_runtime 0 []);
     time_Format := fun _ _ => "2024-01-15 10:30";
     url_Parse_error := fun _ => Some (errorString "invalid URL");
     json_Decode_SearchResult := fun _ =>
       inl (errorString "unexpected end of JSON input");
     json_Decode_Issue := fun _ =>
       inl (errorString "unexpected end of JSON input") |}.







Definition sample_fetch_input : FetchIssuesInput.t :=
  FetchIssuesInput.mk "https://jira.example" "bot@example.com" "token"
    "OPS" None 0.

(** * Properties *)

(** ** Arithmetic on [int] *)

Lemma wrap_in_range z : goint.in_range z -> goint.wrap z = z.
Proof.
  unfold goint.in_range, goint.wrap, goint.MinInt, goint.MaxInt. intros Hz.
  rewrite Z.mod_small; lia.
Qed.

Lemma add_exact a b : goint.in_range (a + b) -> goint.add a b = a + b.
Proof. apply wrap_in_range. Qed.

Lemma len_nonneg {A} (xs : list A) : 0 <= goint.len xs.
Proof. unfold goint.len. lia. Qed.

Lemma len_app {A} (xs ys : list A) :
  goint.len (xs ++ ys) = goint.len xs + goint.len ys.
Proof. unfold goint.len. rewrite length_app. lia. Qed.

Lemma len_pos {A} (xs : list A) : xs <> [] -> 0 < goint.len xs.
Proof. destruct xs; [congruence | unfold goint.len; simpl; lia]. Qed.

(** ** [strconv]: [Atoi] reads back what [Itoa] writes *)

Example Itoa_250 : strconv.Itoa 250 = "250".
Proof. reflexivity. Qed.

Example Itoa_negative : strconv.Itoa (-17) = "-17".
Proof. reflexivity. Qed.

Example Atoi_100 : strconv.Atoi "100" = inr 100.
Proof. reflexivity. Qed.

Example Atoi_signed_padded : strconv.Atoi "+007" = inr 7.
Proof. reflexivity. Qed.

Example Atoi_trailing_letter :
  strconv.Atoi "12a" = inl (strconv.mkNumError "Atoi" "12a" strconv.ErrSyntax).
Proof. reflexivity. Qed.

Example Atoi_above_MaxInt :
  strconv.Atoi "9223372036854775808"
  = inl (strconv.mkNumError "Atoi" "9223372036854775808" strconv.ErrRange).
Proof. vm_compute. reflexivity. Qed.

Example Atoi_MinInt : strconv.Atoi "-9223372036854775808" = inr goint.MinInt.
Proof. vm_compute. reflexivity. Qed.

Lemma digit_cases d :
  0 <= d < 10 ->
  d = 0 \/ d = 1 \/ d = 2 \/ d = 3 \/ d = 4 \/ d = 5 \/ d = 6 \/ d = 7
  \/ d = 8 \/ d = 9.
Proof. lia. Qed.

Ltac each_digit H :=
  apply digit_cases in H;
  repeat (destruct H as [H | H];
          [subst; first [reflexivity | split; reflexivity] |]);
  subst; first [reflexivity | split; reflexivity].

Lemma digit_val_digit_char d :
  0 <= d < 10 -> strconv.digit_val (strconv.digit_char d) = Some d.
Proof. intros Hd. each_digit Hd. Qed.

Lemma digit_char_not_sign d :
  0 <= d < 10 ->
  Ascii.eqb (strconv.digit_char d) "-" = false
  /\ Ascii.eqb (strconv.digit_char d) "+" = false.
Proof. intros Hd. each_digit Hd. Qed.

Lemma parseUint_formatBits fuel :
  forall u acc,
    0 <= u -> u < 10 ^ Z.of_nat fuel -> u <= strconv.maxUint64 ->
    strconv.parseUint_loop (strconv.formatBits fuel u acc) 0
    = strconv.parseUint_loop acc u.
Proof.
  assert (Hc : strconv.maxUint64 / 10 + 1 = 1844674407370955162)
    by reflexivity.
  assert (Hm : strconv.maxUint64 = 18446744073709551615) by reflexivity.
  induction fuel as [| fuel IH]; intros u acc Hu Hlt Hmax.
  - simpl in *. assert (u = 0) by lia. subst. reflexivity.
  - assert (Hd : 0 <= u mod 10 < 10) by (apply Z.mod_pos_bound; lia).
    assert (Hdiv : u = 10 * (u / 10) + u mod 10) by (apply Z.div_mod; lia).
    cbn [strconv.formatBits].
    destruct (u <? 10) eqn:Hsmall.
    + apply Z.ltb_lt in Hsmall.
      rewrite Z.mod_small by lia.
      cbn [strconv.parseUint_loop].
      rewrite digit_val_digit_char, Hc, Hm by lia.
      replace (0 * 10 + u) with u by lia.
      destruct (_ <=? 0) eqn:E1; [apply Z.leb_le in E1; lia |].
      destruct (_ <? u) eqn:E2; [apply Z.ltb_lt in E2; lia | reflexivity].
    + apply Z.ltb_ge in Hsmall.
      rewrite IH.
      * cbn [strconv.parseUint_loop].
        rewrite digit_val_digit_char, Hc, Hm by lia.
        replace (u / 10 * 10 + u mod 10) with u by lia.
        destruct (_ <=? u / 10) eqn:E1; [apply Z.leb_le in E1; lia |].
        destruct (_ <? u) eqn:E2; [apply Z.ltb_lt in E2; lia | reflexivity].
      * lia.
      * rewrite Nat2Z.inj_succ, Z.pow_succ_r in Hlt by lia. lia.
      * lia.
Qed.

Lemma formatBits_head fuel :
  forall u acc,
    0 <= u ->
    exists d rest,
      0 <= d < 10
      /\ strconv.formatBits (S fuel) u acc = String (strconv.digit_char d) rest.
Proof.
  induction fuel as [| fuel IH]; intros u acc Hu.
  - exists (u mod 10), acc. split; [apply Z.mod_pos_bound; lia |].
    simpl. destruct (u <? 10); reflexivity.
  - cbn [strconv.formatBits]. destruct (u <? 10) eqn:Hsmall.
    + exists (u mod 10), acc. split; [apply Z.mod_pos_bound; lia | reflexivity].
    + apply IH. apply Z.div_pos; lia.
Qed.

Lemma Atoi_Itoa n : goint.in_range n -> strconv.Atoi (strconv.Itoa n) = inr n.
Proof.
  unfold goint.in_range, goint.MinInt, goint.MaxInt. intros Hn.
  assert (Hpow : 2 ^ 64 < 10 ^ Z.of_nat 20) by (vm_compute; reflexivity).
  unfold strconv.Atoi, strconv.Itoa.
  destruct (n <? 0) eqn:Hneg.
  - apply Z.ltb_lt in Hneg.
    destruct (formatBits_head 19 (- n) "" ltac:(lia)) as (d & rest & Hd & Hfmt).
    pose proof (parseUint_formatBits 20 (- n) "" ltac:(lia) ltac:(lia)
                  ltac:(unfold strconv.maxUint64; lia)) as Hparse.
    rewrite Hfmt in *. unfold strconv.ParseInt.
    replace (Ascii.eqb "-" "-") with true by reflexivity.
    replace (Ascii.eqb "-" "+") with false by reflexivity.
    cbn [orb negb andb]. rewrite Hparse. cbn [strconv.parseUint_loop].
    destruct (2 ^ 63 <? - n) eqn:E; [apply Z.ltb_lt in E; lia |].
    f_equal. lia.
  - apply Z.ltb_ge in Hneg.
    destruct (formatBits_head 19 n "" ltac:(lia)) as (d & rest & Hd & Hfmt).
    pose proof (parseUint_formatBits 20 n "" ltac:(lia) ltac:(lia)
                  ltac:(unfold strconv.maxUint64; lia)) as Hparse.
    destruct (digit_char_not_sign d Hd) as [Hminus Hplus].
    rewrite Hfmt in *. unfold strconv.ParseInt.
    rewrite Hminus, Hplus. cbn [orb negb andb]. rewrite Hparse.
    cbn [strconv.parseUint_loop].
    destruct (2 ^ 63 <=? n) eqn:E; [apply Z.leb_le in E; lia | reflexivity].
Qed.

Lemma Itoa_nonempty n : String.eqb (strconv.Itoa n) "" = false.
Proof.
  unfold strconv.Itoa. destruct (n <? 0) eqn:Hneg; [reflexivity |].
  apply Z.ltb_ge in Hneg.
  destruct (formatBits_head 19 n "" Hneg) as (d & rest & _ & Hfmt).
  rewrite Hfmt. reflexivity.
Qed.

Lemma Atoi_empty :
  strconv.Atoi "" = inl (strconv.mkNumError "Atoi" "" strconv.ErrSyntax).
Proof. reflexivity. Qed.

Lemma encodes_Itoa n : goint.in_range n -> encodes (strconv.Itoa n) n.
Proof. intros Hn. right. apply Atoi_Itoa, Hn. Qed.

Lemma encodes_decode cursor startAt :
  encodes cursor startAt ->
  (if negb (String.eqb cursor "") then strconv.Atoi cursor else inr 0)
  = inr startAt.
Proof.
  intros [[-> ->] | Hat]; [reflexivity |].
  destruct (String.eqb cursor "") eqn:E; [| exact Hat].
  apply String.eqb_eq in E. subst. discriminate.
Qed.

(** ** The client against an answering remote service *)

Section ClientFacts.
Context `{GoRuntime}.

Lemma SearchJQLWithParams_answer c params w code body :
  accepts_urls ->
  (forall req, World.remote w (World.sent w) req = Response code body) ->
  exists req,
    SearchJQLWithParams c params w
    = ((if negb (code =? StatusOK) then inl (apiError code body)
        else match json_Decode_SearchResult body with
             | inl err => inl (Errorf_w "decode response: " err)
             | inr result => inr result
             end),
       World.mk (World.remote w) (World.sent w ++ [req])).
Proof.
  intros Hurl Hans. unfold SearchJQLWithParams, NewRequestWithContext.
  cbv zeta. rewrite Hurl. eexists.
  unfold mbind, IO_bind, httpClient_Do. rewrite Hans.
  destruct (negb (code =? StatusOK)); [reflexivity |].
  destruct (json_Decode_SearchResult body); reflexivity.
Qed.


(** The search call inside a fetcher, once the remote's answer is known. *)
Ltac search_answers Hurl Hans code body :=
  cbv zeta; unfold mbind, IO_bind;
  match goal with
  | |- context [SearchJQLWithParams ?c ?p ?w] =>
      let req := fresh "req" in
      let Heq := fresh "Heq" in
      destruct (SearchJQLWithParams_answer c p w code body Hurl Hans)
        as [req Heq];
      rewrite Heq; exists req
  end.

Lemma FetchAllIssues_fetcher_pages cfg :
  accepts_urls -> page_fetcher (FetchAllIssues_fetcher cfg).
Proof.
  intros Hurl cursor startAt w result Henc (body & Hans & Hdec).
  unfold FetchAllIssues_fetcher. rewrite (encodes_decode _ _ Henc).
  search_answers Hurl Hans StatusOK body.
  cbn [negb Z.eqb StatusOK Pos.eqb]. rewrite Hdec. reflexivity.
Qed.

Lemma SearchAllJQL_fetcher_pages cfg :
  accepts_urls -> page_fetcher (SearchAllJQL_fetcher cfg).
Proof.
  intros Hurl cursor startAt w result Henc (body & Hans & Hdec).
  unfold SearchAllJQL_fetcher. rewrite (encodes_decode _ _ Henc).
  search_answers Hurl Hans StatusOK body.
  cbn [negb Z.eqb StatusOK Pos.eqb]. rewrite Hdec. reflexivity.
Qed.

End ClientFacts.

(** ** The engine over a page fetcher *)

Section EngineFacts.
Context `{GoRuntime}.
Variable fetchPage : string -> IO (PageResult.t * option error).
Hypothesis fetch_pages : page_fetcher fetchPage.

Lemma total_len_cons p ps : total_len (p :: ps) = goint.len p + total_len ps.
Proof. unfold total_len. simpl. apply len_app. Qed.

Lemma total_len_nonneg ps : 0 <= total_len ps.
Proof. apply len_nonneg. Qed.

Lemma serves_pages_head w total p ps :
  serves_pages w total (p :: ps) ->
  exists result,
    answers_page w result
    /\ SearchResult.Total result = total /\ SearchResult.Issues result = p.
Proof.
  intros Hs.
  destruct (Hs 0%nat p (World.sent w) eq_refl ltac:(lia))
    as (body & result & Hans & Hdec & Htot & Hiss).
  exists result. repeat split; try assumption. exists body. auto.
Qed.

Lemma serves_pages_tail w total p ps req :
  serves_pages w total (p :: ps) ->
  serves_pages (World.mk (World.remote w) (World.sent w ++ [req])) total ps.
Proof.
  intros Hs k page hist Hk Hlen. cbn [World.remote World.sent] in *.
  apply (Hs (S k) page hist Hk).
  rewrite length_app in Hlen. simpl in Hlen. lia.
Qed.


(** The loop invariant of a run over non-empty pages that add up to the
    total: at offset [s] with the pages [p :: ps] still to come, the loop
    finishes after exactly these pages. *)
Lemma paginate_loop_pages ps :
  forall p cursor s acc n w total fuel,
    Forall (fun page => page <> []) (p :: ps) ->
    encodes cursor s -> 0 <= s ->
    s + total_len (p :: ps) = total -> total <= goint.MaxInt ->
    serves_pages w total (p :: ps) ->
    (length (p :: ps) <= fuel)%nat ->
    exists w',
      core.paginate_loop fuel fetchPage cursor acc n w
      = (core.Finished
           (core.Output.mk (acc ++ concat (p :: ps))
              (n + goint.len (p :: ps)) ""), w')
      /\ length (World.sent w')
         = (length (World.sent w) + length (p :: ps))%nat.
Proof.
  induction ps as [| q qs IH];
    intros p cursor s acc n w total fuel Hne Henc Hs Hsum Hmax Hserve Hfuel;
    (destruct fuel as [| fuel]; [simpl in Hfuel; lia |]);
    destruct (serves_pages_head _ _ _ _ Hserve)
      as (result & Hans & Htot & Hiss);
    destruct (fetch_pages cursor s w result Henc Hans) as [req Hfetch];
    cbv zeta in Hfetch; rewrite Htot, Hiss in Hfetch;
    rewrite total_len_cons in Hsum;
    pose proof (len_nonneg p) as Hp;
    cbn [core.paginate_loop]; unfold mbind, IO_bind; rewrite Hfetch;
    cbn [PageResult.Items PageResult.HasMore PageResult.NextCursor].
  - assert (Hz : total_len [] = 0) by reflexivity.
    rewrite add_exact
      by (unfold goint.in_range, goint.MinInt, goint.MaxInt in *; lia).
    replace (s + goint.len p <? total) with false
      by (symmetry; apply Z.ltb_ge; lia).
    eexists. split.
    + unfold mret, IO_ret. simpl. rewrite app_nil_r. reflexivity.
    + cbn [World.sent]. rewrite length_app. reflexivity.
  - pose proof (total_len_nonneg qs) as Hqs.
    rewrite total_len_cons in Hsum.
    assert (Hq : 0 < goint.len q).
    { apply len_pos. inversion Hne as [| ? ? _ Hrest]; subst.
      inversion Hrest; subst. assumption. }
    assert (Hin : goint.in_range (s + goint.len p))
      by (unfold goint.in_range, goint.MinInt, goint.MaxInt in *; lia).
    rewrite add_exact by exact Hin.
    replace (s + goint.len p <? total) with true
      by (symmetry; apply Z.ltb_lt; lia).
    destruct (IH q (strconv.Itoa (s + goint.len p)) (s + goint.len p)
                (acc ++ p)%list (n + 1)
                (World.mk (World.remote w) (World.sent w ++ [req]))
                total fuel)
      as (w' & Hrun & Hsent).
    + inversion Hne; assumption.
    + apply encodes_Itoa, Hin.
    + lia.
    + rewrite total_len_cons. lia.
    + exact Hmax.
    + eapply serves_pages_tail, Hserve.
    + simpl in Hfuel |- *. lia.
    + exists w'. split.
      * rewrite Hrun. f_equal. f_equal. f_equal.
        -- simpl. rewrite <- app_assoc. reflexivity.
        -- unfold goint.len. simpl length. lia.
      * rewrite Hsent. cbn [World.sent]. rewrite length_app. simpl. lia.
Qed.


(** An error of the fetch function ends the run at once. *)
Lemma paginate_loop_fetch_error fuel cursor acc n w page err w' :
  fetchPage cursor w = ((page, Some err), w') ->
  core.paginate_loop (S fuel) fetchPage cursor acc n w = (core.Failed err, w').
Proof.
  intros Hfetch. cbn [core.paginate_loop]. unfold mbind, IO_bind.
  rewrite Hfetch. reflexivity.
Qed.

End EngineFacts.

(** ** What a successful fetch call reveals *)

Section FetcherInversion.
Context `{GoRuntime}.

Lemma decode_encodes cursor startAt :
  (if negb (String.eqb cursor "") then strconv.Atoi cursor else inr 0)
  = inr startAt ->
  encodes cursor startAt.
Proof.
  destruct (String.eqb cursor "") eqn:E; cbn [negb]; intros Hdec.
  - apply String.eqb_eq in E. left. split; congruence.
  - right. exact Hdec.
Qed.

Lemma SearchJQLWithParams_inr c params w result w1 :
  SearchJQLWithParams c params w = (inr result, w1) ->
  exists req body,
    World.remote w (World.sent w) req = Response StatusOK body
    /\ json_Decode_SearchResult body = inr result
    /\ w1 = World.mk (World.remote w) (World.sent w ++ [req]).
Proof.
  unfold SearchJQLWithParams, NewRequestWithContext. cbv zeta.
  destruct (url_Parse_error _); [discriminate |].
  unfold mbind, IO_bind, httpClient_Do.
  match goal with
  | |- context [World.remote w (World.sent w) ?r] =>
      set (req := r); destruct (World.remote w (World.sent w) req)
        as [err | code body] eqn:Hans
  end; [discriminate |].
  destruct (code =? StatusOK) eqn:Hcode; cbn [negb]; [| discriminate].
  apply Z.eqb_eq in Hcode. subst code.
  destruct (json_Decode_SearchResult body) eqn:Hdec; [discriminate |].
  intros Heq. inversion Heq; subst. exists req, body. auto.
Qed.

Ltac invert_fetcher :=
  intros cursor w page w1;
  cbv zeta; unfold mbind, IO_bind;
  destruct (if negb (String.eqb cursor "") then strconv.Atoi cursor
            else inr 0) as [err | startAt] eqn:Hcur; [discriminate |];
  match goal with
  | |- context [SearchJQLWithParams ?c ?p w] =>
      destruct (SearchJQLWithParams c p w) as [[err | result] w2] eqn:Hcall
  end; [discriminate |];
  intros Heq; inversion Heq; subst; clear Heq;
  match goal with
  | Hc : SearchJQLWithParams _ _ _ = _ |- _ =>
      destruct (SearchJQLWithParams_inr _ _ _ _ _ Hc)
        as (req & body & Hans & Hdec & ->)
  end;
  do 4 eexists;
  cbn [PageResult.Items PageResult.HasMore PageResult.NextCursor];
  repeat split;
  first [eassumption | eapply decode_encodes; eassumption | reflexivity].

Lemma FetchAllIssues_fetcher_arithmetic cfg :
  cursor_arithmetic (FetchAllIssues_fetcher cfg).
Proof. unfold cursor_arithmetic, FetchAllIssues_fetcher. invert_fetcher. Qed.

Lemma SearchAllJQL_fetcher_arithmetic cfg :
  cursor_arithmetic (SearchAllJQL_fetcher cfg).
Proof. unfold cursor_arithmetic, SearchAllJQL_fetcher. invert_fetcher. Qed.

(** Along a chain of calls the cursor stands for the start offset plus the
    number of items returned so far, and from the second call on it is the
    decimal text of that number. *)
Lemma fetch_chain_offset fetchPage w cursor pages cursor' w' :
  cursor_arithmetic fetchPage ->
  fetch_chain fetchPage w cursor pages cursor' w' ->
  forall s,
    encodes cursor s -> 0 <= s -> s + total_len pages <= goint.MaxInt ->
    encodes cursor' (s + total_len pages)
    /\ (pages <> [] -> cursor' = strconv.Itoa (s + total_len pages)).
Proof.
  intros Harith Hchain.
  induction Hchain as [w cursor | w cursor page w1 pages cursor' w' Hcall
                                  Hmore Hchain IH];
    intros s Henc Hs Hmax.
  - change (total_len []) with 0. rewrite Z.add_0_r. split; [exact Henc |].
    congruence.
  - destruct (Harith _ _ _ _ Hcall)
      as (s' & req & body & result & Henc' & _ & _ & _ & _ & Hflag & Hnext).
    assert (s' = s).
    { destruct Henc as [[-> ->] | Ha], Henc' as [[E ->] | Ha'];
        try congruence.
      - rewrite Atoi_empty in Ha'. discriminate.
      - subst cursor. rewrite Atoi_empty in Ha. discriminate. }
    subst s'. cbv zeta in Hflag, Hnext.
    rewrite Hmore in Hflag. rewrite <- Hflag in Hnext.
    rewrite total_len_cons in *.
    pose proof (len_nonneg (PageResult.Items page)) as Hp.
    pose proof (total_len_nonneg pages) as Hps.
    assert (Hin : goint.in_range (s + goint.len (PageResult.Items page)))
      by (unfold goint.in_range, goint.MinInt, goint.MaxInt in *; lia).
    rewrite add_exact in Hnext by exact Hin.
    destruct (IH (s + goint.len (PageResult.Items page))) as [IHenc IHtext].
    + rewrite Hnext. apply encodes_Itoa, Hin.
    + lia.
    + lia.
    + rewrite Z.add_assoc. split; [exact IHenc |]. intros _.
      destruct pages as [| q qs]; [| apply IHtext; discriminate].
      inversion Hchain; subst. rewrite Hnext.
      change (total_len []) with 0. rewrite Z.add_0_r. reflexivity.
Qed.

End FetcherInversion.

(** ** Normalisation *)

Lemma append_nil_r s : s +:+ "" = s.
Proof.
  induction s as [| c s IH]; [reflexivity |].
  change (String c (s +:+ "") = String c s). by rewrite IH.
Qed.

Lemma append_assoc s1 s2 s3 : (s1 +:+ s2) +:+ s3 = s1 +:+ (s2 +:+ s3).
Proof.
  induction s1 as [| c s1 IH]; [reflexivity |].
  change (String c ((s1 +:+ s2) +:+ s3) = String c (s1 +:+ s2 +:+ s3)).
  by rewrite IH.
Qed.


Lemma Contains_suffix pre sub : Contains sub (pre +:+ sub).
Proof. exists pre, "". by rewrite append_nil_r. Qed.

Lemma Contains_prepend label sub s : Contains sub s -> Contains sub (label +:+ s).
Proof.
  intros (pre & post & ->). exists (label +:+ pre), post.
  by rewrite append_assoc.
Qed.

Section NormalisationFacts.
Context `{GoRuntime}.

Lemma fold_left_comment_lines comments :
  forall content,
    fold_left (fun content comment => content +:+ comment_line comment)
              comments content
    = content +:+ concat_strings (map comment_line comments).
Proof.
  induction comments as [| c comments IH]; intros content; simpl.
  - by rewrite append_nil_r.
  - rewrite IH. apply append_assoc.
Qed.

Lemma issueToDocument_content issue :
  Document.Content (issueToDocument issue) = spec_content issue.
Proof.
  unfold issueToDocument, spec_content, comments_of.
  cbn [Document.Content].
  destruct (IssueFields.Comments (Issue.Fields issue)) as [comments |];
    destruct (String.eqb (IssueFields.Description (Issue.Fields issue)) "");
    cbn [negb map concat_strings fold_right];
    rewrite ?fold_left_comment_lines, ?append_assoc, ?append_nil_r;
    reflexivity.
Qed.

End NormalisationFacts.

(** C5: the content of the normalised document is the summary, then a blank
    line and the description when the description is not empty, then for
    each comment in order the segment
    [LF LF "[Comment by <author display name>]: <body>"]; the title is the
    summary.  On summary "Bug", description "Steps..." and one comment by
    Alice with body "Confirmed." the content is
    "Bug", two line feeds, "Steps...", two line feeds,
    "[Comment by Alice]: Confirmed.". *)
Theorem content_is_summary_description_comments `{GoRuntime} issue :
  Document.Content (issueToDocument issue) = spec_content issue
  /\ Document.Title (issueToDocument issue)
     = IssueFields.Summary (Issue.Fields issue)
  /\ Document.Content (issueToDocument scenario_issue)
     = "Bug" +:+ LF +:+ LF +:+ "Steps..." +:+ LF +:+ LF
         +:+ "[Comment by Alice]: Confirmed.".
Proof.
  split; [apply issueToDocument_content |].
  split; reflexivity.
Qed.

(** C6: the metadata of the normalised document binds "issue_key",
    "project", "status" and "issue_type" to the record's key, project key,
    status name and issue type name; it binds "priority" exactly when the
    record has a priority, to its name, and "assignee" exactly when the
    record has an assignee, to the display name; an absent field leaves the
    key unbound. *)
Theorem metadata_keys `{GoRuntime} issue :
  let fields := Issue.Fields issue in
  let metadata := Document.Metadata (issueToDocument issue) in
  metadata !! "issue_key" = Some (Issue.Key issue)
  /\ metadata !! "project" = Some (Project.Key (IssueFields.Project fields))
  /\ metadata !! "status" = Some (Status.Name (IssueFields.Status fields))
  /\ metadata !! "issue_type"
     = Some (IssueType.Name (IssueFields.IssueType fields))
  /\ metadata !! "priority" = Priority.Name <$> IssueFields.Priority fields
  /\ metadata !! "assignee" = User.DisplayName <$> IssueFields.Assignee fields
  /\ (is_Some (metadata !! "priority")
      <-> is_Some (IssueFields.Priority fields))
  /\ (is_Some (metadata !! "assignee")
      <-> is_Some (IssueFields.Assignee fields))
  /\ dom metadata ⊆ {["issue_key"; "project"; "status"; "issue_type";
                      "priority"; "assignee"]}.
Proof.
  intros fields metadata. subst metadata fields.
  unfold issueToDocument. cbn [Document.Metadata].
  destruct (IssueFields.Priority (Issue.Fields issue)) as [priority |];
    destruct (IssueFields.Assignee (Issue.Fields issue)) as [assignee |];
    cbn [fmap option_fmap option_map];
    (repeat split;
     [reflexivity .. | | | | |
      intros k; rewrite !dom_insert_L, dom_empty_L;
      rewrite !elem_of_union, !elem_of_singleton, elem_of_empty; tauto]);
    intros [x Hx]; first [discriminate | by eexists].
Qed.

(** C7: for a record whose "updated" text is empty, or does not parse
    against the layout, the normalised document carries the zero time; the
    other fields are set as for every record, and normalisation, a total
    function, yields a document for every record. *)
Theorem updatedAt_degrades_to_zero `{GoRuntime} issue :
  IssueFields.Updated (Issue.Fields issue) = ""
  \/ (exists err,
        time_Parse updated_layout (IssueFields.Updated (Issue.Fields issue))
        = inl err) ->
  Document.UpdatedAt (issueToDocument issue) = time.zero
  /\ Document.ID (issueToDocument issue) = Issue.Key issue
  /\ Document.Content (issueToDocument issue) = spec_content issue
  /\ Document.Title (issueToDocument issue)
     = IssueFields.Summary (Issue.Fields issue)
  /\ Document.Source (issueToDocument issue) = "jira".
Proof.
  intros Hupd. split; [| split; [reflexivity |
    split; [apply issueToDocument_content | split; reflexivity]]].
  unfold issueToDocument. cbn [Document.UpdatedAt].
  destruct Hupd as [-> | [err ->]]; [reflexivity |].
  destruct (negb _); reflexivity.
Qed.

(** C10: for a record without a comments container the content is the
    summary, followed by a blank line and the description when the
    description is not empty, and nothing else. *)
Theorem content_without_comments `{GoRuntime} issue :
  IssueFields.Comments (Issue.Fields issue) = None ->
  Document.Content (issueToDocument issue)
  = IssueFields.Summary (Issue.Fields issue)
      +:+ (if String.eqb (IssueFields.Description (Issue.Fields issue)) ""
           then ""
           else LF +:+ LF +:+ IssueFields.Description (Issue.Fields issue)).
Proof.
  intros Hnone. unfold issueToDocument. cbn [Document.Content].
  rewrite Hnone.
  destruct (String.eqb _ ""); cbn [negb]; by rewrite ?append_nil_r.
Qed.

(** ** The scripted remote service *)

Lemma scripted_accepts_urls total pages :
  @accepts_urls (scripted_runtime total pages).
Proof. intros target. reflexivity. Qed.



(** ** The claims on pagination *)



(** C2: for either fetcher, a call that succeeds was made with a cursor that
    stands for a start offset [startAt] and got a page of [items] with a
    [total]; it yields the more-flag [startAt + len(items) < total], and the
    next cursor [Itoa(startAt + len(items))] when the flag is set and [""]
    otherwise (the sum being Go's on [int]).  Hence along the successive
    calls of a run that starts with the cursor [""], the cursor passed to
    call k+1 is the decimal text of the number of items returned by the
    calls 1..k.  A call at an offset in range against a remote service that
    answers with a page succeeds with exactly this result. *)
Theorem cursor_is_sum_of_page_lengths `{GoRuntime} cfgA cfgS fetchPage :
  fetchPage = FetchAllIssues_fetcher cfgA
  \/ fetchPage = SearchAllJQL_fetcher cfgS ->
  cursor_arithmetic fetchPage
  /\ (forall w pages cursor w',
        fetch_chain fetchPage w "" pages cursor w' ->
        pages <> [] ->
        total_len pages <= goint.MaxInt ->
        cursor = strconv.Itoa (total_len pages))
  /\ (forall cursor startAt w result,
        accepts_urls ->
        encodes cursor startAt ->
        answers_page w result ->
        goint.in_range (startAt + goint.len (SearchResult.Issues result)) ->
        let next := startAt + goint.len (SearchResult.Issues result) in
        fst (fetchPage cursor w)
        = (PageResult.mk (SearchResult.Issues result)
             (if next <? SearchResult.Total result
              then strconv.Itoa next else "")
             (next <? SearchResult.Total result), None)).
Proof.
  intros Hwhich.
  assert (Harith : cursor_arithmetic fetchPage).
  { destruct Hwhich as [-> | ->];
      [apply FetchAllIssues_fetcher_arithmetic
      | apply SearchAllJQL_fetcher_arithmetic]. }
  split; [exact Harith |]. split.
  - intros w pages cursor w' Hchain Hne Hmax.
    destruct (fetch_chain_offset _ _ _ _ _ _ Harith Hchain 0) as [_ Htext].
    + left. split; reflexivity.
    + lia.
    + lia.
    + rewrite Htext by exact Hne. reflexivity.
  - intros cursor startAt w result Hurl Henc Hans Hin next.
    assert (Hfetch : page_fetcher fetchPage).
    { destruct Hwhich as [-> | ->];
        [apply FetchAllIssues_fetcher_pages
        | apply SearchAllJQL_fetcher_pages]; exact Hurl. }
    destruct (Hfetch cursor startAt w result Henc Hans) as [req Heq].
    cbv zeta in Heq. rewrite add_exact in Heq by exact Hin.
    rewrite Heq. reflexivity.
Qed.

Lemma cursor_is_sum_of_page_lengths_witness :
  exists cursor w',
    fetch_chain (@SearchAllJQL_fetcher two_page_runtime sample_cfg)
                scripted_world ""
                [[sample_issue "OPS-1"; sample_issue "OPS-2"]] cursor w'
    /\ cursor = "2".
Proof.
  pose (fetchPage := @SearchAllJQL_fetcher two_page_runtime sample_cfg).
  pose (first_page := SearchResult.mk 0 0 3
                        [sample_issue "OPS-1"; sample_issue "OPS-2"]).
  destruct (@SearchAllJQL_fetcher_pages two_page_runtime sample_cfg
              (scripted_accepts_urls 3 two_pages) "" 0 scripted_world
              first_page) as [req Hcall].
  - left. split; reflexivity.
  - exists "0". split; reflexivity.
  - cbv zeta in Hcall.
    assert (Hchain : fetch_chain fetchPage scripted_world ""
                       [SearchResult.Issues first_page] "2"
                       (World.mk (World.remote scripted_world)
                                 (World.sent scripted_world ++ [req]))).
    { eapply (chain_call fetchPage scripted_world ""
                (PageResult.mk (SearchResult.Issues first_page) "2" true)).
      - exact Hcall.
      - reflexivity.
      - apply chain_done. }
    exists "2". eexists. split; [exact Hchain |].
    destruct (@cursor_is_sum_of_page_lengths two_page_runtime
                sample_project_cfg sample_cfg fetchPage
                (or_intror eq_refl)) as (_ & Hsum & _).
    rewrite (Hsum _ _ _ _ Hchain); [reflexivity | discriminate |].
    unfold goint.MaxInt, total_len, goint.len. simpl. lia.
Defined.

(** The offsets requested in the three-page scenario of the specification
    follow from C2: after pages of 100 and 100 items the cursor is "200". *)
Example cursor_after_two_hundred `{GoRuntime} cfg w pages cursor w' :
  fetch_chain (SearchAllJQL_fetcher cfg) w "" pages cursor w' ->
  pages <> [] -> total_len pages = 200 -> cursor = "200".
Proof.
  intros Hchain Hne Hlen.
  destruct (fetch_chain_offset _ _ _ _ _ _
              (SearchAllJQL_fetcher_arithmetic cfg) Hchain 0) as [_ Htext].
  - left. split; reflexivity.
  - lia.
  - rewrite Hlen. unfold goint.MaxInt. lia.
  - rewrite Htext by exact Hne. rewrite Hlen. reflexivity.
Qed.

(** The three-page scenario of the specification: pages of 100, 100 and 50
    issues under a total of 250 are fetched with three requests and make a
    result of 250 items. *)
Example three_pages_scenario `{GoRuntime} cfg p1 p2 p3 w :
  accepts_urls ->
  goint.len p1 = 100 -> goint.len p2 = 100 -> goint.len p3 = 50 ->
  serves_pages w 250 [p1; p2; p3] ->
  exists out w',
    core.PaginateAll 3 (FetchAllIssues_fetcher cfg) w
    = (core.Finished out, w')
    /\ goint.len (core.Output.Items out) = 250
    /\ core.Output.PageCount out = 3
    /\ core.Output.FinalCursor out = ""
    /\ length (World.sent w') = (length (World.sent w) + 3)%nat.
Proof.
  intros Hurl H1 H2 H3 Hserve.
  assert (Hlen : total_len [p1; p2; p3] = 250).
  { rewrite !total_len_cons. change (total_len []) with 0. lia. }
  destruct (paginate_loop_pages _ (FetchAllIssues_fetcher_pages cfg Hurl)
              [p2; p3] p1 "" 0 [] 0 w 250 3)
    as (w' & Hrun & Hsent).
  - repeat constructor; intros ->; discriminate.
  - left. split; reflexivity.
  - lia.
  - lia.
  - unfold goint.MaxInt. lia.
  - exact Hserve.
  - simpl. lia.
  - eexists. exists w'. split; [exact Hrun |].
    cbn [core.Output.Items core.Output.PageCount core.Output.FinalCursor].
    repeat split; [exact Hlen | exact Hsent].
Qed.

(** The single-page scenario: a total of 3 delivered at once takes one
    fetch. *)
Example single_page_scenario `{GoRuntime} cfg p w :
  accepts_urls ->
  goint.len p = 3 ->
  serves_pages w 3 [p] ->
  exists w',
    core.PaginateAll 1 (FetchAllIssues_fetcher cfg) w
    = (core.Finished (core.Output.mk p 1 ""), w')
    /\ length (World.sent w') = (length (World.sent w) + 1)%nat.
Proof.
  intros Hurl Hp Hserve.
  destruct (paginate_loop_pages _ (FetchAllIssues_fetcher_pages cfg Hurl)
              [] p "" 0 [] 0 w 3 1)
    as (w' & Hrun & Hsent).
  - repeat constructor; intros ->; discriminate.
  - left. split; reflexivity.
  - lia.
  - rewrite total_len_cons. change (total_len []) with 0. lia.
  - unfold goint.MaxInt. lia.
  - exact Hserve.
  - simpl. lia.
  - exists w'. split; [| exact Hsent].
    unfold core.PaginateAll. rewrite Hrun. simpl. by rewrite app_nil_r.
Qed.






(** The engine ends a run with the error of a cursor it cannot decode, at
    the first iteration and without a request. *)
Lemma cursor_decode_failure_aborts_run `{GoRuntime} cfg cursor e w fuel acc n :
  cursor <> "" ->
  strconv.Atoi cursor = inl e ->
  core.paginate_loop (S fuel) (SearchAllJQL_fetcher cfg) cursor acc n w
  = (core.Failed
       (wrapError ("parse cursor: " +:+ Error (numError e)) (numError e)), w).
Proof.
  intros Hne Hat.
  apply paginate_loop_fetch_error with (page := PageResult.zero).
  unfold SearchAllJQL_fetcher. cbv zeta.
  destruct (String.eqb cursor "") eqn:E.
  - apply String.eqb_eq in E. contradiction.
  - cbn [negb]. rewrite Hat. reflexivity.
Qed.

(** ** The claims on the client *)








(** ** Worked scenarios of normalisation *)

Lemma updatedAt_degrades_to_zero_witness :
  @time_Parse plain_runtime updated_layout "yesterday"
  = inl (errorString ("parsing time " +:+ quote_plain "yesterday"))
  /\ Document.UpdatedAt
       (@issueToDocument plain_runtime
          (Issue.mk "1" "OPS-1" ""
             (IssueFields.mk "Bug" "" (Status.mk "Open" "1")
                (IssueType.mk "Bug" "10") (Project.mk "OPS" "Operations" "7")
                "" "yesterday" [] None None None None)))
     = time.zero.
Proof.
  split; [reflexivity |].
  apply (@updatedAt_degrades_to_zero plain_runtime).
  right. eexists. reflexivity.
Defined.

Lemma content_without_comments_witness :
  Document.Content (@issueToDocument plain_runtime (sample_issue "OPS-1"))
  = "OPS-1".
Proof.
  rewrite (@content_without_comments plain_runtime (sample_issue "OPS-1"));
    reflexivity.
Defined.

(** A timestamp that parses is kept. *)
Example updatedAt_of_parsed_timestamp :
  Document.UpdatedAt
    (@issueToDocument plain_runtime
       (Issue.mk "1" "OPS-1" ""
          (IssueFields.mk "Bug" "" (Status.mk "Open" "1")
             (IssueType.mk "Bug" "10") (Project.mk "OPS" "Operations" "7")
             "" "2024-01-15T10:30:00.000+0000" [] None None None None)))
  = time.mkTime 63840911400 0 0.
Proof. reflexivity. Qed.

(** A record with a priority and no assignee. *)
Example metadata_with_priority :
  let issue :=
    Issue.mk "1" "OPS-1" ""
      (IssueFields.mk "Bug" "" (Status.mk "Open" "1")
         (IssueType.mk "Bug" "10") (Project.mk "OPS" "Operations" "7")
         "" "" [] (Some (Priority.mk "High" "2")) None None None) in
  let metadata := Document.Metadata (@issueToDocument plain_runtime issue) in
  metadata !! "priority" = Some "High" /\ metadata !! "assignee" = None
  /\ metadata !! "project" = Some "OPS".
Proof. repeat split; reflexivity. Qed.

(** * Further properties of the code *)

(** ** The escaped query of a search request *)

Lemma ascii_code_bound c : 0 <= Z.of_N (N_of_ascii c) < 256.
Proof. pose proof (N_ascii_bounded c). lia. Qed.

Lemma hex_cases k :
  0 <= k < 16 ->
  k = 0 \/ k = 1 \/ k = 2 \/ k = 3 \/ k = 4 \/ k = 5 \/ k = 6 \/ k = 7
  \/ k = 8 \/ k = 9 \/ k = 10 \/ k = 11 \/ k = 12 \/ k = 13 \/ k = 14
  \/ k = 15.
Proof. lia. Qed.

Ltac each_hex H :=
  apply hex_cases in H;
  repeat (destruct H as [H | H]; [subst; reflexivity |]);
  subst; reflexivity.

Lemma upperhex_unreserved k :
  0 <= k < 16 -> url.shouldEscape (url.upperhex k) = false.
Proof. intros Hk. each_hex Hk. Qed.

Lemma hexval_upperhex k : 0 <= k < 16 -> hexval (url.upperhex k) = Some k.
Proof. intros Hk. each_hex Hk. Qed.

Lemma hex_digits_of_code c :
  let n := Z.of_N (N_of_ascii c) in
  0 <= n / 16 < 16 /\ 0 <= n mod 16 < 16 /\ 16 * (n / 16) + n mod 16 = n.
Proof.
  intros n. pose proof (ascii_code_bound c) as Hc. fold n in Hc.
  pose proof (Z.div_mod n 16 ltac:(lia)).
  pose proof (Z.mod_pos_bound n 16 ltac:(lia)). lia.
Qed.

Lemma QueryEscape_step c s :
  url.QueryEscape (String c s)
  = (if Ascii.eqb c " " then String "+" (url.QueryEscape s)
     else if url.shouldEscape c then
       String "%"
         (String (url.upperhex (Z.of_N (N_of_ascii c) / 16))
            (String (url.upperhex (Z.of_N (N_of_ascii c) mod 16))
               (url.QueryEscape s)))
     else String c (url.QueryEscape s)).
Proof. reflexivity. Qed.

Lemma unescape_QueryEscape s : unescape (url.QueryEscape s) = Some s.
Proof.
  induction s as [| c s IH]; [reflexivity |].
  rewrite QueryEscape_step.
  destruct (hex_digits_of_code c) as (Hhi & Hlo & Hsum).
  destruct (Ascii.eqb_spec c " ") as [-> | Hspace].
  - cbn [unescape]. replace (Ascii.eqb "+" "%") with false by reflexivity.
    replace (Ascii.eqb "+" "+") with true by reflexivity.
    rewrite IH. reflexivity.
  - destruct (url.shouldEscape c) eqn:Hesc.
    + cbn [unescape]. replace (Ascii.eqb "%" "%") with true by reflexivity.
      rewrite !hexval_upperhex, IH, Hsum, N2Z.id, ascii_N_embedding
        by assumption.
      reflexivity.
    + cbn [unescape].
      destruct (Ascii.eqb_spec c "%") as [-> | _]; [discriminate |].
      destruct (Ascii.eqb_spec c "+") as [-> | _]; [discriminate |].
      rewrite IH. reflexivity.
Qed.

(** X1: escaping a query loses nothing: two different queries never give
    the same escaped text, so the remote service can tell them apart (a
    space and a plus sign, for one, are escaped differently). *)
Theorem QueryEscape_is_lossless s s' :
  s <> s' -> url.QueryEscape s <> url.QueryEscape s'.
Proof.
  intros Hne Heq. apply Hne.
  pose proof (unescape_QueryEscape s) as Hback.
  rewrite Heq, unescape_QueryEscape in Hback. congruence.
Qed.

Lemma QueryEscape_is_lossless_witness :
  url.QueryEscape "a b" = "a+b"
  /\ url.QueryEscape "a+b" = "a%2Bb"
  /\ url.QueryEscape "a b" <> url.QueryEscape "a+b".
Proof.
  split; [reflexivity |]. split; [reflexivity |].
  apply (QueryEscape_is_lossless "a b" "a+b"). discriminate.
Defined.

(** X2: the escaped query is made of letters, digits, the marks [-], [_],
    [.], [~], and of [+] and [%] only; no [&], [=], [#], [?], [/] and no
    space occurs in it, so the query cannot add or end a parameter of the
    request. *)
Theorem QueryEscape_has_no_separator s :
  Forall (fun c =>
            (url.shouldEscape c = false \/ c = "+"%char \/ c = "%"%char)
            /\ c <> "&"%char /\ c <> "="%char /\ c <> "#"%char
            /\ c <> "?"%char /\ c <> "/"%char /\ c <> " "%char)
         (list_ascii_of_string (url.QueryEscape s)).
Proof.
  assert (Hsafe : forall c,
             url.shouldEscape c = false \/ c = "+"%char \/ c = "%"%char ->
             (url.shouldEscape c = false \/ c = "+"%char \/ c = "%"%char)
             /\ c <> "&"%char /\ c <> "="%char /\ c <> "#"%char
             /\ c <> "?"%char /\ c <> "/"%char /\ c <> " "%char).
  { intros c Hc. split; [exact Hc |].
    repeat split; intros ->; destruct Hc as [Hc | [Hc | Hc]]; discriminate. }
  induction s as [| c s IH]; [constructor |].
  rewrite QueryEscape_step.
  destruct (hex_digits_of_code c) as (Hhi & Hlo & _).
  destruct (Ascii.eqb c " ").
  - constructor; [apply Hsafe; auto | exact IH].
  - destruct (url.shouldEscape c) eqn:Hesc.
    + cbn [list_ascii_of_string].
      constructor; [apply Hsafe; auto |].
      constructor;
        [apply Hsafe; left; apply upperhex_unreserved; assumption |].
      constructor;
        [apply Hsafe; left; apply upperhex_unreserved; assumption | exact IH].
    + constructor; [apply Hsafe; auto | exact IH].
Qed.

(** ** The request that goes out *)

Lemma page_size_pos m : 0 < page_size m.
Proof.
  unfold page_size. destruct (m <=? 0) eqn:E; [lia |].
  apply Z.leb_gt in E. lia.
Qed.

Lemma page_size_kept m :
  (if page_size m <=? 0 then 50 else page_size m) = page_size m.
Proof.
  pose proof (page_size_pos m).
  destruct (page_size m <=? 0) eqn:E; [apply Z.leb_le in E; lia | reflexivity].
Qed.

Lemma setAuth_prepared c target :
  prepared_request (setAuth c (Request.mk MethodGet target None ∅)) target
                   (Client.email c) (Client.apiToken c).
Proof.
  unfold prepared_request, setAuth.
  cbn [Request.Method Request.URL Request.BasicAuth Request.Header].
  repeat split.
Qed.

Section RequestFacts.
Context `{GoRuntime}.

Lemma FetchAllIssues_as_search cfg cursor w :
  FetchAllIssues_fetcher cfg cursor w
  = SearchAllJQL_fetcher
      (SearchAllJQLConfig.mk (FetchAllIssuesConfig.BaseURL cfg)
         (FetchAllIssuesConfig.Email cfg) (FetchAllIssuesConfig.APIToken cfg)
         (project_jql (FetchAllIssuesConfig.Project cfg)
            (FetchAllIssuesConfig.Since cfg))
         (FetchAllIssuesConfig.MaxResults cfg))
      cursor w.
Proof.
  unfold FetchAllIssues_fetcher, SearchAllJQL_fetcher, project_jql.
  destruct (FetchAllIssuesConfig.Since cfg); reflexivity.
Qed.


Lemma GetIssue_sends c key w :
  accepts_urls ->
  exists req,
    prepared_request req (Client.baseURL c +:+ "/rest/api/3/issue/" +:+ key)
                     (Client.email c) (Client.apiToken c)
    /\ snd (GetIssue c key w)
       = World.mk (World.remote w) (World.sent w ++ [req]).
Proof.
  intros Hurl.
  exists (setAuth c (Request.mk MethodGet
                      (Client.baseURL c +:+ "/rest/api/3/issue/" +:+ key)
                      None ∅)).
  split; [apply setAuth_prepared |].
  unfold GetIssue, NewRequestWithContext. cbv zeta.
  rewrite Hurl. unfold mbind, IO_bind, httpClient_Do.
  destruct (World.remote w _ _) as [err | code body]; [reflexivity |].
  destruct (negb _); [reflexivity |].
  destruct (json_Decode_Issue body); reflexivity.
Qed.


End RequestFacts.





(** X5: the query of [FetchAllIssues] apart, the two page fetchers are one
    function: a call of the project fetcher is the call of the search
    fetcher with the project's query, the same account and page size. *)
Theorem project_fetcher_is_search_fetcher `{GoRuntime} cfg cursor w :
  FetchAllIssues_fetcher cfg cursor w
  = SearchAllJQL_fetcher
      (SearchAllJQLConfig.mk (FetchAllIssuesConfig.BaseURL cfg)
         (FetchAllIssuesConfig.Email cfg) (FetchAllIssuesConfig.APIToken cfg)
         (project_jql (FetchAllIssuesConfig.Project cfg)
            (FetchAllIssuesConfig.Since cfg))
         (FetchAllIssuesConfig.MaxResults cfg))
      cursor w.
Proof. apply FetchAllIssues_as_search. Qed.

(** ** Failures of a request *)

Section FailureFacts.
Context `{GoRuntime}.

Lemma wrapped_under_message labels :
  forall cause e,
    wrapped_under labels cause e ->
    Error e = concat_strings labels +:+ Error cause.
Proof.
  induction labels as [| label labels IH]; intros cause e Hw.
  - simpl in Hw. subst. reflexivity.
  - destruct Hw as (inner & -> & Hinner).
    cbn [Error concat_strings fold_right].
    rewrite (IH _ _ Hinner). symmetry. apply append_assoc.
Qed.

Lemma wrapped_under_Errorf label labels cause inner :
  wrapped_under labels cause inner ->
  wrapped_under (label :: labels) cause (Errorf_w label inner).
Proof. intros Hw. exists inner. split; [reflexivity | exact Hw]. Qed.

(** The search of the client, case by case. *)
Lemma SearchJQLWithParams_eq c params w :
  let maxResults :=
    if SearchJQLParams.MaxResults params <=? 0 then 50
    else SearchJQLParams.MaxResults params in
  let target :=
    search_endpoint (Client.baseURL c) (SearchJQLParams.JQL params)
                    (SearchJQLParams.StartAt params) maxResults in
  let req := setAuth c (Request.mk MethodGet target None ∅) in
  SearchJQLWithParams c params w
  = match url_Parse_error target with
    | Some err => (inl (Errorf_w "create request: " err), w)
    | None =>
        (match World.remote w (World.sent w) req with
         | TransportError err => inl (Errorf_w "execute request: " err)
         | Response code body =>
             if negb (code =? StatusOK) then inl (apiError code body)
             else match json_Decode_SearchResult body with
                  | inl err => inl (Errorf_w "decode response: " err)
                  | inr result => inr result
                  end
         end,
         World.mk (World.remote w) (World.sent w ++ [req]))
    end.
Proof.
  cbv zeta. unfold SearchJQLWithParams, NewRequestWithContext, search_endpoint.
  cbv zeta. destruct (url_Parse_error _); [reflexivity |].
  unfold mbind, IO_bind, httpClient_Do.
  destruct (World.remote w _ _) as [err | code body]; [reflexivity |].
  destruct (negb _); [reflexivity |].
  destruct (json_Decode_SearchResult body); reflexivity.
Qed.

Lemma GetIssue_eq c key w :
  let target := Client.baseURL c +:+ "/rest/api/3/issue/" +:+ key in
  let req := setAuth c (Request.mk MethodGet target None ∅) in
  GetIssue c key w
  = match url_Parse_error target with
    | Some err => (inl (Errorf_w "create request: " err), w)
    | None =>
        (match World.remote w (World.sent w) req with
         | TransportError err => inl (Errorf_w "execute request: " err)
         | Response code body =>
             if negb (code =? StatusOK) then inl (apiError code body)
             else match json_Decode_Issue body with
                  | inl err => inl (Errorf_w "decode response: " err)
                  | inr issue => inr issue
                  end
         end,
         World.mk (World.remote w) (World.sent w ++ [req]))
    end.
Proof.
  cbv zeta. unfold GetIssue, NewRequestWithContext.
  cbv zeta. destruct (url_Parse_error _); [reflexivity |].
  unfold mbind, IO_bind, httpClient_Do.
  destruct (World.remote w _ _) as [err | code body]; [reflexivity |].
  destruct (negb _); [reflexivity |].
  destruct (json_Decode_Issue body); reflexivity.
Qed.

(** The search fetcher in terms of the search of the client. *)
Lemma SearchAllJQL_fetcher_eq cfg cursor w :
  SearchAllJQL_fetcher cfg cursor w
  = match (if negb (String.eqb cursor "") then strconv.Atoi cursor
           else inr 0) with
    | inl err =>
        ((PageResult.zero, Some (Errorf_w "parse cursor: " (numError err))), w)
    | inr startAt =>
        let '(r, w1) :=
          SearchJQLWithParams
            (NewClient (ClientConfig.mk (SearchAllJQLConfig.BaseURL cfg)
                          (SearchAllJQLConfig.Email cfg)
                          (SearchAllJQLConfig.APIToken cfg) 0))
            (SearchJQLParams.mk (SearchAllJQLConfig.JQL cfg) startAt
               (page_size (SearchAllJQLConfig.MaxResults cfg))) w in
        (match r with
         | inl err => (PageResult.zero, Some (Errorf_w "search jql: " err))
         | inr result =>
             let next :=
               goint.add startAt (goint.len (SearchResult.Issues result)) in
             (PageResult.mk (SearchResult.Issues result)
                (if next <? SearchResult.Total result
                 then strconv.Itoa next else "")
                (next <? SearchResult.Total result), None)
         end, w1)
    end.
Proof.
  unfold SearchAllJQL_fetcher, page_size. cbv zeta.
  destruct (if negb (String.eqb cursor "") then strconv.Atoi cursor
            else inr 0) as [err | startAt]; [reflexivity |].
  unfold mbind, IO_bind.
  destruct (SearchJQLWithParams _ _ w) as [[err | result] w1]; reflexivity.
Qed.

Lemma FetchIssueActivity_eq input w :
  FetchIssueActivity input w
  = let '(r, w1) :=
      GetIssue (NewClient (ClientConfig.mk (FetchIssueInput.BaseURL input)
                             (FetchIssueInput.Email input)
                             (FetchIssueInput.APIToken input) 0))
               (FetchIssueInput.IssueKey input) w in
    (match r with
     | inl err => (FetchIssueOutput.zero, Some (Errorf_w "get issue: " err))
     | inr issue => (FetchIssueOutput.mk (issueToDocument issue) true, None)
     end, w1).
Proof.
  unfold FetchIssueActivity. cbv zeta. unfold mbind, IO_bind.
  destruct (GetIssue _ _ w) as [[err | issue] w1]; reflexivity.
Qed.

End FailureFacts.

Lemma wrap_range z : goint.in_range (goint.wrap z).
Proof.
  unfold goint.in_range, goint.wrap, goint.MinInt, goint.MaxInt.
  pose proof (Z.mod_pos_bound (z + 2 ^ 63) (2 ^ 64) ltac:(lia)). lia.
Qed.



Section CallFacts.
Context `{GoRuntime}.




Lemma SearchAllJQL_fetcher_consistent cfg cursor w :
  let page := fst (fst (SearchAllJQL_fetcher cfg cursor w)) in
  let err := snd (fst (SearchAllJQL_fetcher cfg cursor w)) in
  (err <> None -> page = PageResult.zero)
  /\ (PageResult.HasMore page = true <-> PageResult.NextCursor page <> "")
  /\ (PageResult.HasMore page = false -> PageResult.NextCursor page = "").
Proof.
  cbv zeta. rewrite SearchAllJQL_fetcher_eq.
  destruct (if negb (String.eqb cursor "") then strconv.Atoi cursor
            else inr 0) as [err | startAt].
  - cbn. repeat split; congruence.
  - destruct (SearchJQLWithParams _ _ w) as [[err | result] w1].
    + cbn. repeat split; congruence.
    + cbn [fst snd PageResult.HasMore PageResult.NextCursor].
      destruct (_ <? SearchResult.Total result).
      * repeat split; try congruence. intros _ Hempty.
        pose proof (Itoa_nonempty
                      (goint.add startAt
                         (goint.len (SearchResult.Issues result)))) as Hne.
        rewrite Hempty in Hne. discriminate.
      * repeat split; congruence.
Qed.

End CallFacts.


(** X7: in every result of a page fetcher an error comes with the zero
    page, and the next cursor is empty exactly when the page does not
    report more. *)
Theorem fetcher_result_is_consistent `{GoRuntime} cfgA cfgS cursor w :
  let pageA := fst (fst (FetchAllIssues_fetcher cfgA cursor w)) in
  let errA := snd (fst (FetchAllIssues_fetcher cfgA cursor w)) in
  let pageS := fst (fst (SearchAllJQL_fetcher cfgS cursor w)) in
  let errS := snd (fst (SearchAllJQL_fetcher cfgS cursor w)) in
  ((errA <> None -> pageA = PageResult.zero)
   /\ (PageResult.HasMore pageA = true <-> PageResult.NextCursor pageA <> "")
   /\ (PageResult.HasMore pageA = false -> PageResult.NextCursor pageA = ""))
  /\ ((errS <> None -> pageS = PageResult.zero)
      /\ (PageResult.HasMore pageS = true
          <-> PageResult.NextCursor pageS <> "")
      /\ (PageResult.HasMore pageS = false
          -> PageResult.NextCursor pageS = "")).
Proof.
  cbv zeta. split.
  - rewrite FetchAllIssues_as_search. apply SearchAllJQL_fetcher_consistent.
  - apply SearchAllJQL_fetcher_consistent.
Qed.

Lemma fetcher_result_is_consistent_witness :
  let page :=
    fst (fst (@SearchAllJQL_fetcher two_page_runtime sample_cfg ""
                scripted_world)) in
  PageResult.HasMore page = true /\ PageResult.NextCursor page <> "".
Proof.
  cbv zeta.
  destruct (@fetcher_result_is_consistent two_page_runtime sample_project_cfg
              sample_cfg "" scripted_world) as [_ (_ & Hiff & _)].
  assert (Hmore : PageResult.HasMore
                    (fst (fst (@SearchAllJQL_fetcher two_page_runtime
                                 sample_cfg "" scripted_world))) = true).
  { destruct (@SearchAllJQL_fetcher_pages two_page_runtime sample_cfg
                (scripted_accepts_urls 3 two_pages) "" 0 scripted_world
                (SearchResult.mk 0 0 3
                   [sample_issue "OPS-1"; sample_issue "OPS-2"]))
      as [req Hcall].
    - left. split; reflexivity.
    - exists "0". split; reflexivity.
    - cbv zeta in Hcall. rewrite Hcall. reflexivity. }
  split; [exact Hmore | apply Hiff, Hmore].
Defined.

(** X8: the next cursor of a successful call that reports more is the
    decimal text of an offset within [int], the wrapped sum of the start
    offset and the number of items, and [strconv.Atoi] reads it back: a
    fetcher never hands out a cursor that it would reject. *)
Theorem next_cursor_is_accepted `{GoRuntime} cfgA cfgS fetchPage cursor w
  page w1 :
  fetchPage = FetchAllIssues_fetcher cfgA
  \/ fetchPage = SearchAllJQL_fetcher cfgS ->
  fetchPage cursor w = ((page, None), w1) ->
  PageResult.HasMore page = true ->
  exists startAt,
    encodes cursor startAt
    /\ let next := goint.add startAt (goint.len (PageResult.Items page)) in
       goint.in_range next
       /\ PageResult.NextCursor page = strconv.Itoa next
       /\ strconv.Atoi (PageResult.NextCursor page) = inr next.
Proof.
  intros Hwhich Hcall Hmore.
  assert (Harith : cursor_arithmetic fetchPage).
  { destruct Hwhich as [-> | ->];
      [apply FetchAllIssues_fetcher_arithmetic
      | apply SearchAllJQL_fetcher_arithmetic]. }
  destruct (Harith _ _ _ _ Hcall)
    as (startAt & req & body & result & Henc & _ & _ & _ & _ & Hflag & Hnext).
  exists startAt. split; [exact Henc |]. cbv zeta in *.
  rewrite <- Hflag, Hmore in Hnext.
  split; [apply wrap_range |]. split; [exact Hnext |].
  rewrite Hnext. apply Atoi_Itoa, wrap_range.
Qed.

Lemma next_cursor_is_accepted_witness :
  exists page w1,
    @SearchAllJQL_fetcher two_page_runtime sample_cfg "" scripted_world
    = ((page, None), w1)
    /\ strconv.Atoi (PageResult.NextCursor page) = inr 2.
Proof.
  destruct (@SearchAllJQL_fetcher_pages two_page_runtime sample_cfg
              (scripted_accepts_urls 3 two_pages) "" 0 scripted_world
              (SearchResult.mk 0 0 3
                 [sample_issue "OPS-1"; sample_issue "OPS-2"]))
    as [req Hcall].
  - left. split; reflexivity.
  - exists "0". split; reflexivity.
  - cbv zeta in Hcall. eexists. eexists. split; [exact Hcall |].
    destruct (@next_cursor_is_accepted two_page_runtime sample_project_cfg
                sample_cfg _ "" scripted_world _ _ (or_intror eq_refl)
                Hcall eq_refl)
      as (startAt & Henc & _ & Htext & Hback).
    rewrite Hback. f_equal.
    destruct Henc as [[_ ->] | Hat]; [reflexivity | discriminate Hat].
Defined.



(** ** The causes of an error *)

(** X10: when the request cannot be built for the URL, nothing is sent: the
    search fetcher returns the zero page and the single-issue activity the
    zero output, each with the cause wrapped under "create request: " and
    then under "search jql: " or "get issue: ", and the world is as it
    was. *)
Theorem rejected_url_sends_nothing `{GoRuntime} cfg cursor startAt input w
  cause1 cause2 :
  encodes cursor startAt ->
  url_Parse_error
    (search_endpoint (SearchAllJQLConfig.BaseURL cfg)
       (SearchAllJQLConfig.JQL cfg) startAt
       (page_size (SearchAllJQLConfig.MaxResults cfg))) = Some cause1 ->
  url_Parse_error
    (FetchIssueInput.BaseURL input +:+ "/rest/api/3/issue/"
       +:+ FetchIssueInput.IssueKey input) = Some cause2 ->
  (exists e,
     SearchAllJQL_fetcher cfg cursor w = ((PageResult.zero, Some e), w)
     /\ wrapped_under ["search jql: "; "create request: "] cause1 e
     /\ Error e = "search jql: create request: " +:+ Error cause1)
  /\ (exists e,
        FetchIssueActivity input w = ((FetchIssueOutput.zero, Some e), w)
        /\ wrapped_under ["get issue: "; "create request: "] cause2 e
        /\ Error e = "get issue: create request: " +:+ Error cause2).
Proof.
  intros Henc Hsearch Hissue. split.
  - rewrite SearchAllJQL_fetcher_eq, (encodes_decode _ _ Henc).
    rewrite SearchJQLWithParams_eq. cbv zeta.
    cbn [SearchJQLParams.MaxResults SearchJQLParams.JQL
           SearchJQLParams.StartAt NewClient Client.baseURL
           ClientConfig.BaseURL].
    rewrite page_size_kept, Hsearch.
    eexists. split; [reflexivity |].
    assert (Hw : wrapped_under ["search jql: "; "create request: "] cause1
                   (Errorf_w "search jql: "
                      (Errorf_w "create request: " cause1)))
      by (do 2 apply wrapped_under_Errorf; reflexivity).
    split; [exact Hw | exact (wrapped_under_message _ _ _ Hw)].
  - rewrite FetchIssueActivity_eq, GetIssue_eq. cbv zeta.
    cbn [NewClient Client.baseURL ClientConfig.BaseURL].
    rewrite Hissue.
    eexists. split; [reflexivity |].
    assert (Hw : wrapped_under ["get issue: "; "create request: "] cause2
                   (Errorf_w "get issue: "
                      (Errorf_w "create request: " cause2)))
      by (do 2 apply wrapped_under_Errorf; reflexivity).
    split; [exact Hw | exact (wrapped_under_message _ _ _ Hw)].
Qed.

Lemma rejected_url_sends_nothing_witness :
  exists e,
    @SearchAllJQL_fetcher strict_runtime sample_cfg "" scripted_world
    = ((PageResult.zero, Some e), scripted_world)
    /\ @Error strict_runtime e = "search jql: create request: invalid URL".
Proof.
  destruct (@rejected_url_sends_nothing strict_runtime sample_cfg "" 0
              missing_input scripted_world (errorString "invalid URL")
              (errorString "invalid URL"))
    as [(e & Hcall & _ & Hmsg) _].
  - left. split; reflexivity.
  - reflexivity.
  - reflexivity.
  - exists e. split; [exact Hcall | exact Hmsg].
Defined.







(** ** What normalisation keeps and what it drops *)

Section IndexingFacts.
Context `{GoRuntime}.

Lemma comment_lines_of_view cs1 cs2 :
  map (fun c => (User.DisplayName (Comment.Author c), Comment.Body c)) cs1
  = map (fun c => (User.DisplayName (Comment.Author c), Comment.Body c)) cs2 ->
  map comment_line cs1 = map comment_line cs2.
Proof.
  revert cs2. induction cs1 as [| c1 cs1 IH]; intros [| c2 cs2] Hview;
    try discriminate; [reflexivity |].
  simpl in Hview. inversion Hview as [[Hname Hbody Hrest]].
  simpl. rewrite (IH _ Hrest). unfold comment_line.
  rewrite Hname, Hbody. reflexivity.
Qed.

Lemma spec_content_of_view i1 i2 :
  indexed_view i1 = indexed_view i2 -> spec_content i1 = spec_content i2.
Proof.
  unfold indexed_view. cbv zeta. intros Hview.
  injection Hview as Hkey Hself Hsum Hdesc Hst Hty Hpr Hupd Hprio Hasg Hcs.
  unfold spec_content. cbv zeta. rewrite Hsum, Hdesc.
  do 2 f_equal. f_equal. apply (comment_lines_of_view _ _ Hcs).
Qed.

Lemma concat_strings_contains l s :
  In s l -> Contains s (concat_strings l).
Proof.
  induction l as [| x l IH]; intros Hin; [destruct Hin |].
  destruct Hin as [-> | Hin]; cbn [concat_strings fold_right].
  - exists "", (concat_strings l). reflexivity.
  - apply Contains_prepend, IH, Hin.
Qed.

Lemma Contains_trans a b c : Contains a b -> Contains b c -> Contains a c.
Proof.
  intros (p1 & q1 & ->) (p2 & q2 & ->).
  exists (p2 +:+ p1), (q1 +:+ q2). by rewrite !append_assoc.
Qed.

Lemma Contains_prefix sub post : Contains sub (sub +:+ post).
Proof. exists "", post. reflexivity. Qed.

Lemma Contains_append_r s t sub : Contains sub s -> Contains sub (s +:+ t).
Proof.
  intros (pre & post & ->). exists pre, (post +:+ t). by rewrite !append_assoc.
Qed.

End IndexingFacts.

(** X14: the document depends on the indexed fields only: two issues that
    agree on key, link, summary, description, status name, type name,
    project key, updated text, priority name, assignee display name and on
    the authors' display names and the bodies of their comments have the
    same document.  Identifier, creation time, labels, reporter and the
    other parts of the nested records never reach the document, and a
    comments container without comments counts as an absent one. *)
Theorem document_depends_on_indexed_fields `{GoRuntime} i1 i2 :
  indexed_view i1 = indexed_view i2 ->
  issueToDocument i1 = issueToDocument i2.
Proof.
  intros Hview.
  pose proof (spec_content_of_view _ _ Hview) as Hcontent.
  rewrite <- !issueToDocument_content in Hcontent.
  unfold indexed_view in Hview. cbv zeta in Hview.
  injection Hview as Hkey Hself Hsum Hdesc Hst Hty Hpr Hupd Hprio Hasg Hcs.
  assert (Hdoc : forall i,
             issueToDocument i
             = Document.mk (Issue.Key i)
                 (Document.Content (issueToDocument i))
                 (IssueFields.Summary (Issue.Fields i)) "jira" (Issue.Self i)
                 (Document.Metadata (issueToDocument i))
                 (Document.UpdatedAt (issueToDocument i)))
    by reflexivity.
  rewrite (Hdoc i1), (Hdoc i2), Hcontent, Hkey, Hself, Hsum.
  f_equal.
  - unfold issueToDocument. cbn [Document.Metadata].
    rewrite Hkey, Hst, Hty, Hpr.
    destruct (IssueFields.Priority (Issue.Fields i1)),
      (IssueFields.Priority (Issue.Fields i2)); try discriminate;
      destruct (IssueFields.Assignee (Issue.Fields i1)),
        (IssueFields.Assignee (Issue.Fields i2)); try discriminate;
      cbn in Hprio, Hasg; congruence.
  - unfold issueToDocument. cbn [Document.UpdatedAt]. rewrite Hupd.
    reflexivity.
Qed.

Lemma document_depends_on_indexed_fields_witness :
  decorated_issue <> sample_issue "OPS-1"
  /\ @issueToDocument plain_runtime decorated_issue
     = @issueToDocument plain_runtime (sample_issue "OPS-1").
Proof.
  split; [discriminate |].
  apply (@document_depends_on_indexed_fields plain_runtime).
  reflexivity.
Defined.

(** X15: a further comment extends the content by its own segment and
    changes nothing else: the content of the issue with the comments
    [comments ++ [c]] is the content with [comments] followed by a blank
    line and "[Comment by <author>]: <body>" of [c]; identifier, title,
    source, link, metadata and time are the same. *)
Theorem appending_a_comment_appends_its_segment `{GoRuntime} issue comments c :
  let before := issueToDocument (with_comments issue comments) in
  let after := issueToDocument (with_comments issue (comments ++ [c])) in
  Document.Content after
  = Document.Content before +:+ LF +:+ LF +:+ "[Comment by "
      +:+ User.DisplayName (Comment.Author c) +:+ "]: " +:+ Comment.Body c
  /\ after
     = Document.mk (Document.ID before) (Document.Content after)
         (Document.Title before) (Document.Source before)
         (Document.URL before) (Document.Metadata before)
         (Document.UpdatedAt before).
Proof.
  cbv zeta. split; [| reflexivity].
  unfold issueToDocument, with_comments.
  cbn [Document.Content Issue.Fields IssueFields.Comments Comments.Comments
         IssueFields.Summary IssueFields.Description].
  rewrite fold_left_app. reflexivity.
Qed.

(** X16: every indexed text can be found in the content: the content starts
    with the summary, and the description, the body of every comment and
    the display name of its author occur in it. *)
Theorem content_contains_indexed_text `{GoRuntime} issue :
  let content := Document.Content (issueToDocument issue) in
  (exists rest, content = IssueFields.Summary (Issue.Fields issue) +:+ rest)
  /\ Contains (IssueFields.Description (Issue.Fields issue)) content
  /\ Forall (fun c =>
               Contains (Comment.Body c) content
               /\ Contains (User.DisplayName (Comment.Author c)) content)
            (comments_of issue).
Proof.
  cbv zeta. rewrite issueToDocument_content. unfold spec_content. cbv zeta.
  split; [eexists; reflexivity |]. split.
  - destruct (String.eqb_spec (IssueFields.Description (Issue.Fields issue))
                             "") as [-> | Hne].
    + eexists "", _. reflexivity.
    + apply Contains_prepend, Contains_append_r.
      apply Contains_prepend, Contains_suffix.
  - apply List.Forall_forall. intros c Hc.
    assert (Hline : Contains
                      (LF +:+ LF +:+ "[Comment by "
                          +:+ User.DisplayName (Comment.Author c) +:+ "]: "
                          +:+ Comment.Body c)
                      (concat_strings
                         (map (fun c => LF +:+ LF +:+ "[Comment by "
                                 +:+ User.DisplayName (Comment.Author c)
                                 +:+ "]: " +:+ Comment.Body c)
                              (comments_of issue)))).
    { apply concat_strings_contains.
      apply (List.in_map (fun c => LF +:+ LF +:+ "[Comment by "
                            +:+ User.DisplayName (Comment.Author c)
                            +:+ "]: " +:+ Comment.Body c)), Hc. }
    split.
    + do 2 apply Contains_prepend.
      eapply Contains_trans; [| exact Hline].
      do 4 apply Contains_prepend. apply Contains_suffix.
    + do 2 apply Contains_prepend.
      eapply Contains_trans; [| exact Hline].
      do 3 apply Contains_prepend. apply Contains_prefix.
Qed.

(** ** The single-page activities *)

Section ActivityFacts.
Context `{GoRuntime} `{Storage}.




Lemma FetchIssuesActivity_as_search input e :
  FetchIssuesActivity input e
  = let '((out, err), e') := SearchJQLActivity (as_search_input input) e in
    ((as_fetch_output out, err), e').
Proof.
  unfold FetchIssuesActivity, SearchJQLActivity, as_search_input, project_jql.
  cbv zeta.
  cbn [SearchJQLInput.BaseURL SearchJQLInput.Email SearchJQLInput.APIToken
         SearchJQLInput.JQL SearchJQLInput.MaxResults].
  unfold mbind, Activity_bind, liftIO.
  destruct (FetchIssuesInput.Since input);
    (destruct (SearchJQL _ _ _ (Env.world e)) as [[err | result] w1];
     [reflexivity |]);
    unfold StoreDocuments;
    destruct (transform_StoreDocuments _ _); reflexivity.
Qed.

End ActivityFacts.

(** X17: the project activity is the search activity run with the
    project's query: the same requests, the same batch handed to storage,
    the same reference, count, total and error. *)
Theorem project_activity_is_search_activity `{GoRuntime} `{Storage} input e :
  FetchIssuesActivity input e
  = let '((out, err), e') := SearchJQLActivity (as_search_input input) e in
    ((as_fetch_output out, err), e').
Proof. apply FetchIssuesActivity_as_search. Qed.





